(** * Quant-Trading-Bot: the signal engine of [quant_backend.py]

    A shallow embedding of the class [QuantBackend] and of the session loop
    [MT5Server.handle_client], and the properties of the engine proved on it.

    Numbers.  Python's [float] (and numpy's [float64], [int64]) are modelled
    as real numbers: every JSON number is a real, arithmetic is exact, rounding
    is not represented, and neither are the non-finite values [nan] and [inf]
    (where numpy would produce one, with a warning and without raising, the
    model produces the value Stdlib's total division, [sqrt] or [ln] gives).
    Control flow, shapes, exceptions and state updates are those of the source.

    Dynamic typing.  A value that flows through the engine is a number, a
    one-dimensional numeric array, a two-dimensional numeric array (kept as
    its rows), an object decoded from JSON, or some other Python object.  The
    library calls are written out on numbers and one-dimensional arrays; their
    behaviour on anything else is a field of the record [library], as is the
    behaviour of the fitted models (hidden-Markov model, random forest,
    principal components, unit-root and rank tests) and of the JSON and UTF-8
    decoders.  The theorems hold for every such library; two libraries are
    defined to run the engine on sample requests.

    Exceptions carry the text [str] gives them; the texts are those of
    CPython and numpy, shortened where these append sizes or type names. *)

From Stdlib Require Import Reals Lra List String Ascii DecimalString ZArith Lia Bool.
From Stdlib Require Import Strings.Byte.
Import ListNotations.

Set Warnings "-register-all".

Open Scope string_scope.
Open Scope list_scope.
Open Scope R_scope.

(** ** Exceptions and results *)

Inductive exn : Type :=
| JSONDecodeError (msg : string) (lineno colno pos : nat)
| KeyError (key : string)
| TypeError (msg : string)
| ValueError (msg : string)
| IndexError (msg : string)
| AttributeError (msg : string)
| LinAlgError (msg : string)
| LibraryError (cls msg : string).

Definition decimal (n : nat) : string := NilEmpty.string_of_uint (Nat.to_uint n).

(** [str(e)].  [json.JSONDecodeError] formats its message with the position;
    [KeyError] shows the [repr] of the key. *)
Definition str (e : exn) : string :=
  match e with
  | JSONDecodeError msg lineno colno pos =>
      (msg ++ ": line " ++ decimal lineno ++ " column " ++ decimal colno
           ++ " (char " ++ decimal pos ++ ")")%string
  | KeyError key => ("'" ++ key ++ "'")%string
  | TypeError msg => msg
  | ValueError msg => msg
  | IndexError msg => msg
  | AttributeError msg => msg
  | LinAlgError msg => msg
  | LibraryError _ msg => msg
  end.

Inductive result (A : Type) : Type :=
| Ok (a : A)
| Raise (e : exn).
Arguments Ok {A} a.
Arguments Raise {A} e.

Definition rbind {A B} (r : result A) (k : A -> result B) : result B :=
  match r with
  | Ok a => k a
  | Raise e => Raise e
  end.

(** ** JSON documents, as [json.loads] returns them and [json.dumps] takes them *)

Inductive json : Type :=
| JNull
| JBool (b : bool)
| JNum (x : R)
| JStr (s : string)
| JArr (l : list json)
| JObj (m : list (string * json)).

Fixpoint lookup (key : string) (m : list (string * json)) : option json :=
  match m with
  | [] => None
  | (k, v) :: rest => if String.eqb k key then Some v else lookup key rest
  end.

Definition as_number (j : json) : option R :=
  match j with
  | JNum x => Some x
  | _ => None
  end.

(** The numbers of a JSON array all of whose elements are numbers. *)
Fixpoint numbers (l : list json) : option (list R) :=
  match l with
  | [] => Some []
  | j :: rest =>
      match as_number j, numbers rest with
      | Some x, Some xs => Some (x :: xs)
      | _, _ => None
      end
  end.

(** ** Real-number helpers *)

Definition Rgtb (a b : R) : bool := if Rlt_dec b a then true else false.
Definition Rltb (a b : R) : bool := if Rlt_dec a b then true else false.
Definition Reqb (a b : R) : bool := if Req_dec_T a b then true else false.

Definition vec2 : Type := (R * R)%type.
Definition mat2 : Type := ((R * R) * (R * R))%type.

Definition eye2 : mat2 := ((1, 0), (0, 1)).
Definition m00 (m : mat2) : R := fst (fst m).
Definition m01 (m : mat2) : R := snd (fst m).
Definition m10 (m : mat2) : R := fst (snd m).
Definition m11 (m : mat2) : R := snd (snd m).

Definition mscale (c : R) (m : mat2) : mat2 :=
  ((c * m00 m, c * m01 m), (c * m10 m, c * m11 m)).
Definition madd (a b : mat2) : mat2 :=
  ((m00 a + m00 b, m01 a + m01 b), (m10 a + m10 b, m11 a + m11 b)).
Definition msub (a b : mat2) : mat2 :=
  ((m00 a - m00 b, m01 a - m01 b), (m10 a - m10 b, m11 a - m11 b)).
Definition mmul (a b : mat2) : mat2 :=
  ((m00 a * m00 b + m01 a * m10 b, m00 a * m01 b + m01 a * m11 b),
   (m10 a * m00 b + m11 a * m10 b, m10 a * m01 b + m11 a * m11 b)).
Definition mtrans (a : mat2) : mat2 := ((m00 a, m10 a), (m01 a, m11 a)).
Definition mvec (a : mat2) (v : vec2) : vec2 :=
  (m00 a * fst v + m01 a * snd v, m10 a * fst v + m11 a * snd v).
Definition vdot (u v : vec2) : R := fst u * fst v + snd u * snd v.
Definition vscale (c : R) (v : vec2) : vec2 := (c * fst v, c * snd v).
Definition vadd (u v : vec2) : vec2 := (fst u + fst v, snd u + snd v).
Definition outer (u v : vec2) : mat2 :=
  ((fst u * fst v, fst u * snd v), (snd u * fst v, snd u * snd v)).

(** ** [filterpy.kalman.KalmanFilter(dim_x=2, dim_z=1)]

    The filter object with the attributes the engine sets or the library
    defaults: [F] is the identity, there is no control input, and the fading
    factor [alpha] is one. *)

Record KalmanFilter : Type := {
  kf_x : vec2;
  kf_P : mat2;
  kf_F : mat2;
  kf_H : vec2;
  kf_R : R;
  kf_Q : mat2
}.

(** [predict()]: [x = F x], [P = alpha^2 F P F^T + Q]. *)
Definition predict (kf : KalmanFilter) : KalmanFilter :=
  {| kf_x := mvec (kf_F kf) (kf_x kf);
     kf_P := madd (mscale 1 (mmul (mmul (kf_F kf) (kf_P kf)) (mtrans (kf_F kf)))) (kf_Q kf);
     kf_F := kf_F kf;
     kf_H := kf_H kf;
     kf_R := kf_R kf;
     kf_Q := kf_Q kf |}.

(** [update(z)] for a scalar observation: innovation [y], innovation variance
    [S], gain [K], and the covariance in Joseph form.  [numpy.linalg.inv]
    raises [LinAlgError] on the singular 1x1 matrix. *)
Definition innovation_variance (kf : KalmanFilter) : R :=
  vdot (kf_H kf) (mvec (kf_P kf) (kf_H kf)) + kf_R kf.

Definition update (kf : KalmanFilter) (z : R) : result KalmanFilter :=
  let y := z - vdot (kf_H kf) (kf_x kf) in
  let PHT := mvec (kf_P kf) (kf_H kf) in
  let S := innovation_variance kf in
  if Reqb S 0 then Raise (LinAlgError "Singular matrix")
  else
    let SI := 1 / S in
    let K := vscale SI PHT in
    let I_KH := msub eye2 (outer K (kf_H kf)) in
    Ok {| kf_x := vadd (kf_x kf) (vscale y K);
          kf_P := madd (mmul (mmul I_KH (kf_P kf)) (mtrans I_KH))
                       (outer (vscale (kf_R kf) K) K);
          kf_F := kf_F kf;
          kf_H := kf_H kf;
          kf_R := kf_R kf;
          kf_Q := kf_Q kf |}.

(** ** The z-score of the specification

    The specification's formula: the observation standardized by the level
    and the variance the filter predicts before the observation is used. *)
Definition predicted_zscore (kf : KalmanFilter) (z : R) : R :=
  (z - fst (kf_x (predict kf))) / sqrt (m00 (kf_P (predict kf))).

(** The code's formula: the level and the variance after [update]. *)
Definition updated_zscore (kf' : KalmanFilter) (z : R) : R :=
  (z - fst (kf_x kf')) / sqrt (m00 (kf_P kf')).

(** A filter as [initialize_kalman_filter] configures it, with a variance
    of the level that is not negative. *)
Definition configured (kf : KalmanFilter) : Prop :=
  kf_F kf = eye2
  /\ kf_H kf = (1, 0)
  /\ kf_R kf = 0.1
  /\ kf_Q kf = mscale 0.01 eye2
  /\ 0 <= m00 (kf_P kf).

(** ** Statistics of numpy on one-dimensional data *)

Definition sum (l : list R) : R := fold_right Rplus 0 l.

(** [np.mean]. *)
Definition mean (l : list R) : R := sum l / INR (List.length l).

(** [np.var] (population variance, [ddof=0]) and [np.std]. *)
Definition var (l : list R) : R :=
  mean (map (fun x => (x - mean l) * (x - mean l)) l).
Definition std (l : list R) : R := sqrt (var l).

Fixpoint dot (a b : list R) : R :=
  match a, b with
  | x :: a', y :: b' => x * y + dot a' b'
  | _, _ => 0
  end.

Definition center (l : list R) : list R := map (fun x => x - mean l) l.

(** An entry of [np.cov(a, b)]: [ddof=1], and a non-positive divisor is
    replaced by zero (numpy warns there). *)
Definition cov (a b : list R) : R :=
  let fact := INR (List.length a) - 1 in
  let fact := if Rle_dec fact 0 then 0 else fact in
  dot (center a) (center b) * (1 / fact).

Definition clip (x lo hi : R) : R := Rmin (Rmax x lo) hi.

(** [np.corrcoef(a, b)[0, 1]]: the covariance divided by both standard
    deviations in turn, then clipped to [[-1, 1]].  On a series of zero
    variance numpy divides 0 by 0 and the entry is nan, which the clipping
    keeps; nan is not represented here, and what is proved of the value of a
    correlation is proved of a correlation that is a number. *)
Definition corrcoef (a b : list R) : R :=
  clip (cov a b / sqrt (cov a a) / sqrt (cov b b)) (-1) 1.

(** [np.diff] of a one-dimensional array. *)
Fixpoint diff (l : list R) : list R :=
  match l with
  | x :: ((y :: _) as rest) => (y - x) :: diff rest
  | _ => []
  end.

(** The slice [l[-n:]] for a positive [n]. *)
Definition tail {A} (n : nat) (l : list A) : list A := skipn (List.length l - n) l.

Fixpoint zip3 (a b c : list R) : list (list R) :=
  match a, b, c with
  | x :: a', y :: b', z :: c' => [x; y; z] :: zip3 a' b' c'
  | _, _, _ => []
  end.

Fixpoint zip2 (a b : list R) : list (list R) :=
  match a, b with
  | x :: a', y :: b' => [x; y] :: zip2 a' b'
  | _, _ => []
  end.

(** The [ValueError] of a concatenation of arrays whose lengths differ; numpy
    appends the axis and the two sizes to this text. *)
Definition mismatch : exn :=
  ValueError "all the input array dimensions except for the concatenation axis must match exactly".

(** ** Values, libraries and the engine state *)

Section Types.

(** Python objects the model does not represent, and the model objects of
    hmmlearn ([GaussianHMM]) and scikit-learn (a fitted [RandomForestClassifier],
    a fitted [PCA]). *)
Variables (other GaussianHMM RandomForest PCA : Type).

(** A number; an array of shape [(n,)]; an array of shape [(n, m)], by rows;
    an object as [json.loads] made it; anything else. *)
Inductive pyvalue : Type :=
| VNum (x : R)
| VVec (l : list R)
| VMat (rows : list (list R))
| VObj (j : json)
| VOther (o : other).

Set Implicit Arguments.

(** What the engine calls and this file does not define: the decoders, the
    numpy calls on arguments that are not one-dimensional numeric data,
    filterpy's [update] on an observation that is not a scalar, and the
    statistical models. *)
Record library : Type := {
  json_loads : string -> result json;
  decode : list byte -> result string;
  array_other : json -> result pyvalue;
  getitem_last_other : pyvalue -> result pyvalue;
  tail20_other : pyvalue -> result pyvalue;
  diff_other : pyvalue -> result pyvalue;
  diff_axis0 : pyvalue -> result pyvalue;
  log_other : pyvalue -> result pyvalue;
  column_stack_other : list pyvalue -> result pyvalue;
  len_other : pyvalue -> result nat;
  corrcoef_other : pyvalue -> pyvalue -> result R;
  cov_other : pyvalue -> pyvalue -> result R;
  var_other : pyvalue -> result R;
  std_other : pyvalue -> result R;
  mean_other : pyvalue -> result R;
  float_other : pyvalue -> result R;
  reshape_other : pyvalue -> result (list R);
  sub_other : pyvalue -> pyvalue -> result pyvalue;
  standardize_other : pyvalue -> R -> R -> result pyvalue;
  update_other : KalmanFilter -> pyvalue -> result KalmanFilter;
  hmm_fit : list R -> GaussianHMM * option exn;
  hmm_predict : GaussianHMM -> list R -> result (list Z);
  predict_proba : RandomForest -> pyvalue -> result R;
  pca_fit : pyvalue -> result PCA;
  pca_transform : PCA -> pyvalue -> result pyvalue;
  explained_variance_ratio : PCA -> pyvalue;
  adfuller : pyvalue -> result R;
  coint_johansen : pyvalue -> result (R * R)
}.

End Types.

Unset Implicit Arguments.

Arguments VNum {other} x.
Arguments VVec {other} l.
Arguments VMat {other} rows.
Arguments VObj {other} j.
Arguments VOther {other} o.


(** ** A sample library and sample inputs

    Used to run the engine on concrete inputs.  No Python object outside the
    model exists here ([Empty_set]), every call the model leaves to the library
    raises [NotImplementedError], bytes decode one character each, and the
    JSON decoder knows the sample request and rejects every other text. *)

Definition not_implemented {A : Type} : result A :=
  Raise (LibraryError "NotImplementedError" "not implemented").

Definition sample_prices : list R :=
  [1; 2; 3; 4; 5; 6; 7; 8; 9; 10; 11; 12; 13; 14; 15;
   16; 17; 18; 19; 20; 21; 22; 23; 24; 25; 26; 27; 28; 29; 30].

(** The document of the request with prices [1..30] and thirty volumes of 100. *)
Definition sample_request : json :=
  JObj [("prices", JArr (map JNum sample_prices));
        ("volumes", JArr (repeat (JNum 100) 30))].

Definition dq : string := String (ascii_of_nat 34) EmptyString.

Definition sample_request_text : string :=
  ("{" ++ dq ++ "prices" ++ dq
   ++ ": [1, 2, 3, 4, 5, 6, 7, 8, 9, 10, 11, 12, 13, 14, 15, "
   ++ "16, 17, 18, 19, 20, 21, 22, 23, 24, 25, 26, 27, 28, 29, 30], "
   ++ dq ++ "volumes" ++ dq
   ++ ": [100, 100, 100, 100, 100, 100, 100, 100, 100, 100, "
   ++ "100, 100, 100, 100, 100, 100, 100, 100, 100, 100, "
   ++ "100, 100, 100, 100, 100, 100, 100, 100, 100, 100]}")%string.

Definition sample_loads (text : string) : result json :=
  if String.eqb text sample_request_text then Ok sample_request
  else Raise (JSONDecodeError "Expecting value" 1 1 0).

Definition sample_library : library Empty_set unit unit unit :=
  {| json_loads := sample_loads;
     decode := fun data => Ok (string_of_list_byte data);
     array_other := fun _ => not_implemented;
     getitem_last_other := fun _ => not_implemented;
     tail20_other := fun _ => not_implemented;
     diff_other := fun _ => not_implemented;
     diff_axis0 := fun _ => not_implemented;
     log_other := fun _ => not_implemented;
     column_stack_other := fun _ => not_implemented;
     len_other := fun _ => not_implemented;
     corrcoef_other := fun _ _ => not_implemented;
     cov_other := fun _ _ => not_implemented;
     var_other := fun _ => not_implemented;
     std_other := fun _ => not_implemented;
     mean_other := fun _ => not_implemented;
     float_other := fun _ => not_implemented;
     reshape_other := fun _ => not_implemented;
     sub_other := fun _ _ => not_implemented;
     standardize_other := fun _ _ _ => not_implemented;
     update_other := fun _ _ => not_implemented;
     hmm_fit := fun _ => (tt, Some (LibraryError "NotImplementedError" "not implemented"));
     hmm_predict := fun _ _ => not_implemented;
     predict_proba := fun _ _ => not_implemented;
     pca_fit := fun _ => not_implemented;
     pca_transform := fun _ _ => not_implemented;
     explained_variance_ratio := fun _ => VVec [];
     adfuller := fun _ => not_implemented;
     coint_johansen := fun _ => not_implemented |}.

(** ** A library for matrices

    numpy on two-dimensional numeric arrays, kept as the list of their rows:
    what a request whose [prices] are a list of lists of numbers meets.
    Indexing and slicing act on rows, [np.diff] and [np.log] inside each row,
    [np.column_stack] puts matrices with one number of rows side by side,
    [np.corrcoef] and [np.cov] take the rows of both arguments as the
    variables (entry (0, 1) relates the first two), and [np.var], [np.std] and
    [np.mean] run over all entries. *)

Fixpoint number_rows (l : list json) : option (list (list R)) :=
  match l with
  | [] => Some []
  | JArr row :: rest =>
      match numbers row, number_rows rest with
      | Some r, Some rs => Some (r :: rs)
      | _, _ => None
      end
  | _ :: _ => None
  end.

Definition rectangular (rows : list (list R)) : bool :=
  match rows with
  | [] => true
  | r :: rest => forallb (fun r' => (List.length r' =? List.length r)%nat) rest
  end.

Fixpoint side_by_side (a b : list (list R)) : list (list R) :=
  match a, b with
  | r :: a', r' :: b' => (r ++ r')%list :: side_by_side a' b'
  | _, _ => []
  end.

Definition first_two {A : Type} (f : list R -> list R -> A) (a b : list (list R)) : result A :=
  match (a ++ b)%list with
  | r0 :: r1 :: rest =>
      if rectangular (r0 :: r1 :: rest) then Ok (f r0 r1) else Raise mismatch
  | _ => Raise (IndexError "index 1 is out of bounds for axis 1 with size 1")
  end.

Definition matrix_request : json :=
  JObj [("prices", JArr [JArr [JNum 1; JNum 2]; JArr [JNum 3; JNum 4]]);
        ("volumes", JArr [JArr [JNum 1]; JArr [JNum 1]])].

Definition matrix_request_text : string :=
  ("{" ++ dq ++ "prices" ++ dq ++ ": [[1, 2], [3, 4]], "
   ++ dq ++ "volumes" ++ dq ++ ": [[1], [1]]}")%string.

(** A request whose prices are one row. *)
Definition row_request : json :=
  JObj [("prices", JArr [JArr [JNum 1; JNum 2; JNum 3]]);
        ("volumes", JArr [JArr [JNum 1]])].

Definition row_request_text : string :=
  ("{" ++ dq ++ "prices" ++ dq ++ ": [[1, 2, 3]], "
   ++ dq ++ "volumes" ++ dq ++ ": [[1]]}")%string.

Definition matrix_loads (text : string) : result json :=
  if String.eqb text matrix_request_text then Ok matrix_request
  else if String.eqb text row_request_text then Ok row_request
  else sample_loads text.

Definition matrix_library : library Empty_set unit unit unit :=
  {| json_loads := matrix_loads;
     decode := fun data => Ok (string_of_list_byte data);
     array_other := fun j =>
       match j with
       | JArr l =>
           match number_rows l with
           | Some rows => if rectangular rows then Ok (VMat rows) else not_implemented
           | None => not_implemented
           end
       | _ => not_implemented
       end;
     getitem_last_other := fun v =>
       match v with
       | VMat [] => Raise (IndexError "index -1 is out of bounds for axis 0 with size 0")
       | VMat rows => Ok (VVec (last rows []))
       | _ => not_implemented
       end;
     tail20_other := fun v =>
       match v with
       | VMat rows => Ok (VMat (tail 20 rows))
       | _ => not_implemented
       end;
     diff_other := fun v =>
       match v with
       | VMat rows => Ok (VMat (map diff rows))
       | _ => not_implemented
       end;
     diff_axis0 := fun _ => not_implemented;
     log_other := fun v =>
       match v with
       | VMat rows => Ok (VMat (map (map ln) rows))
       | _ => not_implemented
       end;
     column_stack_other := fun vs =>
       match vs with
       | [VMat a; VMat b; VMat c] =>
           if ((List.length a =? List.length b) && (List.length b =? List.length c))%nat
           then Ok (VMat (side_by_side (side_by_side a b) c))
           else Raise mismatch
       | _ => not_implemented
       end;
     len_other := fun _ => not_implemented;
     corrcoef_other := fun v w =>
       match v, w with
       | VMat a, VMat b => first_two corrcoef a b
       | _, _ => not_implemented
       end;
     cov_other := fun v w =>
       match v, w with
       | VMat a, VMat b => first_two cov a b
       | _, _ => not_implemented
       end;
     var_other := fun v =>
       match v with
       | VMat rows => Ok (var (List.concat rows))
       | _ => not_implemented
       end;
     std_other := fun v =>
       match v with
       | VMat rows => Ok (std (List.concat rows))
       | _ => not_implemented
       end;
     mean_other := fun v =>
       match v with
       | VMat rows => Ok (mean (List.concat rows))
       | _ => not_implemented
       end;
     float_other := fun _ => not_implemented;
     reshape_other := fun v =>
       match v with
       | VMat rows => Ok (List.concat rows)
       | _ => not_implemented
       end;
     sub_other := fun _ _ => not_implemented;
     standardize_other := fun _ _ _ => not_implemented;
     update_other := fun _ _ => not_implemented;
     hmm_fit := fun _ => (tt, Some (LibraryError "NotImplementedError" "not implemented"));
     hmm_predict := fun _ _ => not_implemented;
     predict_proba := fun _ _ => not_implemented;
     pca_fit := fun _ => not_implemented;
     pca_transform := fun _ _ => not_implemented;
     explained_variance_ratio := fun _ => VVec [];
     adfuller := fun _ => not_implemented;
     coint_johansen := fun _ => not_implemented |}.

(** A filter whose predicted variance is 4/9 and whose updated variance on
    any observation is 4/49, so that both standard deviations are rational. *)
Definition sample_covariance : mat2 := ((391 / 900, 0), (0, 1)).

Definition sample_filter : KalmanFilter :=
  {| kf_x := (0, 0);
     kf_P := sample_covariance;
     kf_F := eye2;
     kf_H := (1, 0);
     kf_R := 0.1;
     kf_Q := mscale 0.01 eye2 |}.

(** What [update] makes of [sample_filter] after [predict], on the
    observation 1. *)
Definition sample_posterior : KalmanFilter :=
  {| kf_x := (40 / 49, 0);
     kf_P := ((4 / 49, 0), (0, 101 / 100));
     kf_F := eye2;
     kf_H := (1, 0);
     kf_R := 0.1;
     kf_Q := mscale 0.01 eye2 |}.

(** A filter whose variance of the level is zero after [predict], and so
    after [update] too. *)
Definition flat_covariance : mat2 := ((- 0.01, 0), (0, 1)).

Definition flat_filter : KalmanFilter :=
  {| kf_x := (0, 0);
     kf_P := flat_covariance;
     kf_F := eye2;
     kf_H := (1, 0);
     kf_R := 0.1;
     kf_Q := mscale 0.01 eye2 |}.

Definition flat_posterior : KalmanFilter :=
  {| kf_x := (0, 0);
     kf_P := ((0, 0), (0, 101 / 100));
     kf_F := eye2;
     kf_H := (1, 0);
     kf_R := 0.1;
     kf_Q := mscale 0.01 eye2 |}.

(** ** A library with a regime model

    As the sample library, with a hidden-Markov model that fits without
    error and labels every return with state 0. *)
Definition regime_library : library Empty_set unit unit unit :=
  {| json_loads := sample_loads;
     decode := fun data => Ok (string_of_list_byte data);
     array_other := fun _ => not_implemented;
     getitem_last_other := fun _ => not_implemented;
     tail20_other := fun _ => not_implemented;
     diff_other := fun _ => not_implemented;
     diff_axis0 := fun _ => not_implemented;
     log_other := fun _ => not_implemented;
     column_stack_other := fun _ => not_implemented;
     len_other := fun _ => not_implemented;
     corrcoef_other := fun _ _ => not_implemented;
     cov_other := fun _ _ => not_implemented;
     var_other := fun _ => not_implemented;
     std_other := fun _ => not_implemented;
     mean_other := fun _ => not_implemented;
     float_other := fun _ => not_implemented;
     reshape_other := fun _ => not_implemented;
     sub_other := fun _ _ => not_implemented;
     standardize_other := fun _ _ _ => not_implemented;
     update_other := fun _ _ => not_implemented;
     hmm_fit := fun _ => (tt, None);
     hmm_predict := fun _ returns => Ok (map (fun _ => 0%Z) returns);
     predict_proba := fun _ _ => not_implemented;
     pca_fit := fun _ => not_implemented;
     pca_transform := fun _ _ => not_implemented;
     explained_variance_ratio := fun _ => VVec [];
     adfuller := fun _ => not_implemented;
     coint_johansen := fun _ => not_implemented |}.


(** A filter whose predicted variance of the level is the negative of the
    measurement noise, so that the innovation variance is zero. *)
Definition singular_covariance : mat2 := ((- 0.11, 0), (0, 1)).

Definition singular_filter : KalmanFilter :=
  {| kf_x := (0, 0);
     kf_P := singular_covariance;
     kf_F := eye2;
     kf_H := (1, 0);
     kf_R := 0.1;
     kf_Q := mscale 0.01 eye2 |}.


(** Evaluates the matrix operations of a filter, leaving the arithmetic of
    the reals to [lra] and [field]. *)
Ltac evaluate_filter :=
  cbv beta iota zeta delta
    [innovation_variance predict update updated_zscore predicted_zscore
     sample_filter sample_covariance sample_posterior
     flat_filter flat_covariance flat_posterior
     eye2 mvec vdot vadd vscale outer madd msub mscale mmul mtrans
     m00 m01 m10 m11 fst snd kf_x kf_P kf_F kf_H kf_R kf_Q].

Ltac split_pairs :=
  repeat match goal with
         | |- (_, _) = (_, _) => apply f_equal2
         end.

Section Engine.

Context {other GaussianHMM RandomForest PCA : Type}.
Variable lib : library other GaussianHMM RandomForest PCA.

Abbreviation value := (pyvalue other).


(** One-dimensional numeric data: an array of shape [(n,)], or a Python list
    of numbers (numpy converts it on entry). *)
Definition series (v : value) : option (list R) :=
  match v with
  | VVec l => Some l
  | VObj (JArr l) => numbers l
  | _ => None
  end.

(** [np.array(j)]. *)
Definition np_array (j : json) : result value :=
  match j with
  | JArr l =>
      match numbers l with
      | Some xs => Ok (VVec xs)
      | None => array_other lib j
      end
  | _ => array_other lib j
  end.

(** [v[-1]]. *)
Definition getitem_last (v : value) : result value :=
  match v with
  | VVec [] => Raise (IndexError "index -1 is out of bounds for axis 0 with size 0")
  | VVec l => Ok (VNum (last l 0))
  | _ => getitem_last_other lib v
  end.

(** [v[-20:]]. *)
Definition tail20 (v : value) : result value :=
  match v with
  | VVec l => Ok (VVec (tail 20 l))
  | _ => tail20_other lib v
  end.

Definition np_diff (v : value) : result value :=
  match series v with
  | Some l => Ok (VVec (diff l))
  | None => diff_other lib v
  end.

Definition np_log (v : value) : result value :=
  match series v with
  | Some l => Ok (VVec (map ln l))
  | None =>
      match v with
      | VNum x => Ok (VNum (ln x))
      | _ => log_other lib v
      end
  end.

(** [returns.reshape(-1, 1)], as the list of its rows' single entries. *)
Definition reshape_column (v : value) : result (list R) :=
  match v with
  | VVec l => Ok l
  | _ => reshape_other lib v
  end.

(** [np.column_stack((a, b, c))]: one-dimensional arrays become the columns
    of a matrix and must have one length. *)
Definition column_stack (a b c : value) : result value :=
  match a, b, c with
  | VVec x, VVec y, VVec z =>
      if ((List.length x =? List.length y) && (List.length y =? List.length z))%nat
      then Ok (VMat (zip3 x y z))
      else Raise mismatch
  | _, _, _ => column_stack_other lib [a; b; c]
  end.

Definition column_stack2 (a b : value) : result value :=
  match a, b with
  | VVec x, VVec y =>
      if (List.length x =? List.length y)%nat
      then Ok (VMat (zip2 x y))
      else Raise mismatch
  | _, _ => column_stack_other lib [a; b]
  end.

(** [len(v)]. *)
Definition len (v : value) : result nat :=
  match v with
  | VNum _ => Raise (TypeError "object of type 'float' has no len()")
  | VVec l => Ok (List.length l)
  | VMat rows => Ok (List.length rows)
  | VObj (JArr l) => Ok (List.length l)
  | VObj (JNum _) => Raise (TypeError "object of type 'float' has no len()")
  | VObj (JBool _) => Raise (TypeError "object of type 'bool' has no len()")
  | VObj JNull => Raise (TypeError "object of type 'NoneType' has no len()")
  | _ => len_other lib v
  end.

(** [np.corrcoef(a, b)[0, 1]] and [np.cov(a, b)[0, 1]]: the two rows are
    stacked, so their lengths must agree. *)
Definition np_corrcoef (a b : value) : result R :=
  match series a, series b with
  | Some x, Some y =>
      if (List.length x =? List.length y)%nat then Ok (corrcoef x y) else Raise mismatch
  | _, _ => corrcoef_other lib a b
  end.

Definition np_cov (a b : value) : result R :=
  match series a, series b with
  | Some x, Some y =>
      if (List.length x =? List.length y)%nat then Ok (cov x y) else Raise mismatch
  | _, _ => cov_other lib a b
  end.

Definition np_var (v : value) : result R :=
  match series v with
  | Some l => Ok (var l)
  | None => var_other lib v
  end.

Definition np_std (v : value) : result R :=
  match series v with
  | Some l => Ok (std l)
  | None => std_other lib v
  end.

Definition np_mean (v : value) : result R :=
  match series v with
  | Some l => Ok (mean l)
  | None => mean_other lib v
  end.

(** [float(v)].  On an array of one element numpy 1.x returns the element
    and numpy 2.x raises; that case is the library's. *)
Definition py_float (v : value) : result R :=
  match v with
  | VNum x => Ok x
  | VVec [_] => float_other lib v
  | VVec _ => Raise (TypeError "only length-1 arrays can be converted to Python scalars")
  | _ => float_other lib v
  end.

(** [(spread - mean) / std], elementwise on an array. *)
Definition standardize (spread : value) (mean std : R) : result value :=
  match spread with
  | VNum z => Ok (VNum ((z - mean) / std))
  | VVec l => Ok (VVec (map (fun z => (z - mean) / std) l))
  | _ => standardize_other lib spread mean std
  end.

(** [series1 - series2] on arrays, with numpy's broadcasting of a length-one
    array. *)
Definition np_sub (a b : value) : result value :=
  match a, b with
  | VNum x, VNum y => Ok (VNum (x - y))
  | VVec x, VVec y =>
      if (List.length x =? List.length y)%nat
      then Ok (VVec (map (fun p => fst p - snd p) (combine x y)))
      else
        match x, y with
        | [x0], _ => Ok (VVec (map (fun v => x0 - v) y))
        | _, [y0] => Ok (VVec (map (fun v => v - y0) x))
        | _, _ => Raise (ValueError "operands could not be broadcast together")
        end
  | _, _ => sub_other lib a b
  end.

(** *** The state of a [QuantBackend] object

    [rf_classifier] is [Some] once the forest has been fitted (it then has the
    attribute [classes_]); [pca] likewise.  [kmeans] and [price_history] are
    never read or written by any method and are left out. *)
Record QuantBackend : Type := {
  kalman_filter : option KalmanFilter;
  hmm_model : option GaussianHMM;
  pca : option PCA;
  rf_classifier : option RandomForest;
  regime_history : list Z;
  correlation_matrix : option mat2
}.

(** [QuantBackend()], with a forest that has not been fitted. *)
Definition init : QuantBackend :=
  {| kalman_filter := None;
     hmm_model := None;
     pca := None;
     rf_classifier := None;
     regime_history := [];
     correlation_matrix := None |}.

Definition set_kalman_filter (self : QuantBackend) (k : option KalmanFilter) : QuantBackend :=
  {| kalman_filter := k;
     hmm_model := hmm_model self;
     pca := pca self;
     rf_classifier := rf_classifier self;
     regime_history := regime_history self;
     correlation_matrix := correlation_matrix self |}.

Definition set_hmm_model (self : QuantBackend) (m : option GaussianHMM) : QuantBackend :=
  {| kalman_filter := kalman_filter self;
     hmm_model := m;
     pca := pca self;
     rf_classifier := rf_classifier self;
     regime_history := regime_history self;
     correlation_matrix := correlation_matrix self |}.

Definition set_pca (self : QuantBackend) (p : option PCA) : QuantBackend :=
  {| kalman_filter := kalman_filter self;
     hmm_model := hmm_model self;
     pca := p;
     rf_classifier := rf_classifier self;
     regime_history := regime_history self;
     correlation_matrix := correlation_matrix self |}.

Definition set_regime_history (self : QuantBackend) (h : list Z) : QuantBackend :=
  {| kalman_filter := kalman_filter self;
     hmm_model := hmm_model self;
     pca := pca self;
     rf_classifier := rf_classifier self;
     regime_history := h;
     correlation_matrix := correlation_matrix self |}.

Definition set_correlation_matrix (self : QuantBackend) (c : option mat2) : QuantBackend :=
  {| kalman_filter := kalman_filter self;
     hmm_model := hmm_model self;
     pca := pca self;
     rf_classifier := rf_classifier self;
     regime_history := regime_history self;
     correlation_matrix := c |}.

(** A method: it may change [self] and then returns or raises; the changes
    made before an exception stay. *)
Definition M (A : Type) : Type := QuantBackend -> QuantBackend * result A.

Definition ret {A} (a : A) : M A := fun self => (self, Ok a).

Definition bind {A B} (c : M A) (k : A -> M B) : M B :=
  fun self =>
    match c self with
    | (self', Ok a) => k a self'
    | (self', Raise e) => (self', Raise e)
    end.

Definition lift {A} (r : result A) : M A := fun self => (self, r).

Notation "x <- c ;; k" := (bind c (fun x => k))
  (at level 61, c at next level, right associativity).

(** ** The methods of [QuantBackend] *)

Definition initialize_kalman_filter (initial_state : vec2) (initial_covariance : mat2)
  : M unit :=
  fun self =>
    (set_kalman_filter self
       (Some {| kf_x := initial_state;
                kf_P := initial_covariance;
                kf_F := eye2;
                kf_H := (1, 0);
                kf_R := 0.1;
                kf_Q := mscale 0.01 eye2 |}),
     Ok tt).

(** [self.kalman_filter.update(spread)]. *)
Definition kalman_update (kf : KalmanFilter) (spread : value) : result KalmanFilter :=
  match spread with
  | VNum z => update kf z
  | _ => update_other lib kf spread
  end.

Definition calculate_zscore (spread : value) : M value :=
  fun self =>
    match kalman_filter self with
    | None => (self, Ok (VNum 0))
    | Some kf =>
        let predicted := predict kf in
        match kalman_update predicted spread with
        | Raise e => (set_kalman_filter self (Some predicted), Raise e)
        | Ok kf' =>
            let mean := fst (kf_x kf') in
            let std := sqrt (m00 (kf_P kf')) in
            (set_kalman_filter self (Some kf'),
             if Reqb std 0 then Ok (VNum 0) else standardize spread mean std)
        end
    end.

Definition detect_cointegration (series1 series2 : value) : M (R * R * R) :=
  lift (rbind (rbind (np_sub series1 series2) (adfuller lib)) (fun adf_pvalue =>
        rbind (column_stack2 series1 series2) (fun data =>
        rbind (coint_johansen lib data) (fun johansen =>
        Ok (adf_pvalue, fst johansen, snd johansen))))).

Definition last_label (regime : list Z) : result Z :=
  match regime with
  | [] => Raise (IndexError "index -1 is out of bounds for axis 0 with size 0")
  | _ => Ok (last regime 0%Z)
  end.

Definition detect_regime (price_data : value) : M bool :=
  fun self =>
    if (List.length (regime_history self) <? 100)%nat then (self, Ok false)
    else
      match rbind (rbind (np_log price_data) np_diff) reshape_column with
      | Raise e => (self, Raise e)
      | Ok returns =>
          let (model, failed) :=
            match hmm_model self with
            | None => hmm_fit lib returns
            | Some m => (m, None)
            end in
          let self := set_hmm_model self (Some model) in
          match failed with
          | Some e => (self, Raise e)
          | None =>
              match rbind (hmm_predict lib model returns) last_label with
              | Raise e => (self, Raise e)
              | Ok label =>
                  let self := set_regime_history self (regime_history self ++ [label]) in
                  if (10 <=? List.length (regime_history self))%nat
                  then
                    let recent_regime := tail 10 (regime_history self) in
                    (self, Ok (List.length (nodup Z.eq_dec recent_regime) =? 1)%nat)
                  else (self, Ok false)
              end
          end
      end.

Definition calculate_pca_signals (price_matrix : value) : M (value * value * value) :=
  fun self =>
    match pca_fit lib price_matrix with
    | Raise e => (self, Raise e)
    | Ok fitted =>
        (set_pca self (Some fitted),
         rbind (pca_transform lib fitted price_matrix) (fun components =>
         rbind (diff_axis0 lib components) (fun momentum =>
         Ok (components, momentum, explained_variance_ratio lib fitted))))
    end.

Definition calculate_ml_probability (features : value) : M R :=
  fun self =>
    match rf_classifier self with
    | None => (self, Ok 0.5)
    | Some forest => (self, predict_proba lib forest features)
    end.

(** What [calculate_hedge_ratio] returns: the bare float [0.0] of its guard,
    or the dictionary with the three keys. *)
Inductive hedge_result : Type :=
| HFloat (x : R)
| HDict (correlation beta hedge_ratio : R).

Definition seed (correlation : R) : mat2 := ((1, correlation), (correlation, 1)).

Definition calculate_hedge_ratio (pair1 pair2 : value) : M hedge_result :=
  n1 <- lift (len pair1) ;;
  if (n1 <? 2)%nat then ret (HFloat 0)
  else
    n2 <- lift (len pair2) ;;
    if (n2 <? 2)%nat then ret (HFloat 0)
    else
      correlation <- lift (np_corrcoef pair1 pair2) ;;
      c <- lift (np_cov pair1 pair2) ;;
      v <- lift (np_var pair2) ;;
      let beta := c / v in
      _ <- (fun self =>
              match correlation_matrix self with
              | None => (set_correlation_matrix self (Some (seed correlation)), Ok tt)
              | Some m =>
                  (set_correlation_matrix self
                     (Some (madd (mscale 0.95 m) (mscale 0.05 (seed correlation)))),
                   Ok tt)
              end) ;;
      s1 <- lift (np_std pair1) ;;
      s2 <- lift (np_std pair2) ;;
      ret (HDict correlation beta (beta * (s1 / s2))).

Definition calculate_optimal_stop (position_data : value) : M bool :=
  n <- lift (len position_data) ;;
  if (n <? 2)%nat then ret false
  else
    returns <- lift (rbind (np_log position_data) np_diff) ;;
    volatility <- lift (np_std returns) ;;
    expected_return <- lift (np_mean returns) ;;
    let risk_aversion := 2.0 in
    let stop_condition := expected_return - 0.5 * risk_aversion * volatility ^ 2 in
    ret (Rltb stop_condition 0).

(** *** [process_mt5_data] *)

Record bundle : Type := {
  zScore : R;
  isDirectionalRegime : bool;
  mlProbability : R;
  kalmanSignal : bool;
  hedgeSignal : bool;
  correlation : R;
  optimalStopSignal : bool
}.

(** [data[key]] on the decoded document.  The texts of the [TypeError]s
    are CPython's, with [float] for the type of every JSON number and without
    the suffix later versions append to the text for strings. *)
Definition getitem (data : json) (key : string) : result json :=
  match data with
  | JObj m =>
      match lookup key m with
      | Some v => Ok v
      | None => Raise (KeyError key)
      end
  | JArr _ => Raise (TypeError "list indices must be integers or slices, not str")
  | JStr _ => Raise (TypeError "string indices must be integers")
  | JNum _ => Raise (TypeError "'float' object is not subscriptable")
  | JBool _ => Raise (TypeError "'bool' object is not subscriptable")
  | JNull => Raise (TypeError "'NoneType' object is not subscriptable")
  end.

(** [data.get(key, default)]. *)
Definition get (data : json) (key : string) (default : value) : result value :=
  match data with
  | JObj m =>
      match lookup key m with
      | Some v => Ok (VObj v)
      | None => Ok default
      end
  | _ => Raise (AttributeError "object has no attribute 'get'")
  end.

(** [hedge_data['correlation']]. *)
Definition hedge_correlation (hedge_data : hedge_result) : result R :=
  match hedge_data with
  | HDict correlation _ _ => Ok correlation
  | HFloat _ => Raise (TypeError "'float' object is not subscriptable")
  end.

(** The dictionary literal [response], its values evaluated in order. *)
Definition assemble (zscore : value) (regime : bool) (ml_prob : R)
    (hedge_data : hedge_result) (stop_signal : bool) : result bundle :=
  rbind (py_float zscore) (fun z =>
  rbind (hedge_correlation hedge_data) (fun corr =>
  Ok {| zScore := z;
        isDirectionalRegime := regime;
        mlProbability := ml_prob;
        kalmanSignal := Rgtb (Rabs z) 2.0;
        hedgeSignal := Rgtb corr 0.7;
        correlation := corr;
        optimalStopSignal := stop_signal |})).

(** The body of the [try] statement, up to the dictionary. *)
Definition signals (data_json : string) : M bundle :=
  data <- lift (json_loads lib data_json) ;;
  prices <- lift (rbind (getitem data "prices") np_array) ;;
  volumes <- lift (rbind (getitem data "volumes") np_array) ;;
  spread <- lift (getitem_last prices) ;;
  zscore <- calculate_zscore spread ;;
  regime <- detect_regime prices ;;
  window <- lift (tail20 prices) ;;
  volume_window <- lift (tail20 volumes) ;;
  differences <- lift (rbind (tail20 prices) np_diff) ;;
  features <- lift (column_stack window volume_window differences) ;;
  ml_prob <- calculate_ml_probability features ;;
  pair1 <- lift (get data "pair1_prices" prices) ;;
  pair2 <- lift (get data "pair2_prices" prices) ;;
  hedge_data <- calculate_hedge_ratio pair1 pair2 ;;
  stop_signal <- calculate_optimal_stop prices ;;
  lift (assemble zscore regime ml_prob hedge_data stop_signal).

(** The two documents [json.dumps] is given. *)
Definition bundle_response (b : bundle) : json :=
  JObj [("zScore", JNum (zScore b));
        ("isDirectionalRegime", JBool (isDirectionalRegime b));
        ("mlProbability", JNum (mlProbability b));
        ("kalmanSignal", JBool (kalmanSignal b));
        ("hedgeSignal", JBool (hedgeSignal b));
        ("correlation", JNum (correlation b));
        ("optimalStopSignal", JBool (optimalStopSignal b))].

Definition error_response (e : exn) : json := JObj [("error", JStr (str e))].

Definition process_mt5_data (data_json : string) (self : QuantBackend)
  : QuantBackend * json :=
  match signals data_json self with
  | (self', Ok b) => (self', bundle_response b)
  | (self', Raise e) => (self', error_response e)
  end.

(** ** [MT5Server.handle_client]

    The loop over what [recv] returns: it ends on the empty chunk (the peer
    closed) and on an exception outside [process_mt5_data], here a chunk that
    does not decode; it sends one response per chunk otherwise.  The result
    is the engine afterwards and the responses sent, in order. *)
Fixpoint handle_client (received : list (list byte)) (self : QuantBackend)
  : QuantBackend * list json :=
  match received with
  | [] => (self, [])
  | data :: rest =>
      match data with
      | [] => (self, [])
      | _ =>
          match decode lib data with
          | Raise _ => (self, [])
          | Ok text =>
              let (self', response) := process_mt5_data text self in
              let (self'', sent) := handle_client rest self' in
              (self'', response :: sent)
          end
      end
  end.

(** ** Calls from outside and the states they reach *)

Inductive call : Type :=
| Initialize_kalman_filter (initial_state : vec2) (initial_covariance : mat2)
| Calculate_zscore (spread : value)
| Detect_cointegration (series1 series2 : value)
| Detect_regime (price_data : value)
| Calculate_pca_signals (price_matrix : value)
| Calculate_ml_probability (features : value)
| Calculate_hedge_ratio (pair1 pair2 : value)
| Calculate_optimal_stop (position_data : value)
| Process_mt5_data (data_json : string).

(** The engine after a call, whether it returned or raised. *)
Definition step (self : QuantBackend) (c : call) : QuantBackend :=
  match c with
  | Initialize_kalman_filter x0 p0 => fst (initialize_kalman_filter x0 p0 self)
  | Calculate_zscore spread => fst (calculate_zscore spread self)
  | Detect_cointegration s1 s2 => fst (detect_cointegration s1 s2 self)
  | Detect_regime price_data => fst (detect_regime price_data self)
  | Calculate_pca_signals m => fst (calculate_pca_signals m self)
  | Calculate_ml_probability features => fst (calculate_ml_probability features self)
  | Calculate_hedge_ratio pair1 pair2 => fst (calculate_hedge_ratio pair1 pair2 self)
  | Calculate_optimal_stop position_data => fst (calculate_optimal_stop position_data self)
  | Process_mt5_data data_json => fst (process_mt5_data data_json self)
  end.

Inductive reachable : QuantBackend -> Prop :=
| reachable_init : reachable init
| reachable_step self c : reachable self -> reachable (step self c).

(** ** Predicates of the statements below *)

(** The members of a JSON object and their keys, in order. *)
Definition members (j : json) : list (string * json) :=
  match j with
  | JObj m => m
  | _ => []
  end.

Definition keys (j : json) : list string := map fst (members j).

Definition bundle_keys : list string :=
  ["zScore"; "isDirectionalRegime"; "mlProbability"; "kalmanSignal";
   "hedgeSignal"; "correlation"; "optimalStopSignal"].

(** The regime classifier has never got past its guard. *)
Definition cold (self : QuantBackend) : Prop :=
  regime_history self = [] /\ hmm_model self = None.

(** A method keeps a cold engine cold, whether it returns or raises, and
    what it returns on a cold engine satisfies [Q]. *)
Definition keeps_cold {A : Type} (c : M A) (Q : A -> Prop) : Prop :=
  forall self, cold self ->
    cold (fst (c self)) /\ forall a, snd (c self) = Ok a -> Q a.

(** A result that, if it is an exception, is one whose text is not empty;
    and a method that raises such exceptions only. *)
Definition spoken {A : Type} (r : result A) : Prop :=
  forall e, r = Raise e -> str e <> "".

Definition informs {A : Type} (c : M A) : Prop :=
  forall self self' e, c self = (self', Raise e) -> str e <> "".

(** A library whose exceptions carry a text, in every call the body of
    [process_mt5_data] can make: the decoder, numpy, filterpy's [update],
    the hidden-Markov model and the forest raise with a message. *)
Record informative : Prop := {
  json_loads_spoken : forall text, spoken (json_loads lib text);
  array_spoken : forall j, spoken (array_other lib j);
  getitem_last_spoken : forall v, spoken (getitem_last_other lib v);
  tail20_spoken : forall v, spoken (tail20_other lib v);
  diff_spoken : forall v, spoken (diff_other lib v);
  log_spoken : forall v, spoken (log_other lib v);
  column_stack_spoken : forall vs, spoken (column_stack_other lib vs);
  len_spoken : forall v, spoken (len_other lib v);
  corrcoef_spoken : forall v w, spoken (corrcoef_other lib v w);
  cov_spoken : forall v w, spoken (cov_other lib v w);
  var_spoken : forall v, spoken (var_other lib v);
  std_spoken : forall v, spoken (std_other lib v);
  mean_spoken : forall v, spoken (mean_other lib v);
  float_spoken : forall v, spoken (float_other lib v);
  reshape_spoken : forall v, spoken (reshape_other lib v);
  standardize_spoken : forall v m s, spoken (standardize_other lib v m s);
  update_spoken : forall kf v, spoken (update_other lib kf v);
  hmm_fit_spoken : forall returns e, snd (hmm_fit lib returns) = Some e -> str e <> "";
  hmm_predict_spoken : forall m returns, spoken (hmm_predict lib m returns);
  predict_proba_spoken : forall forest v, spoken (predict_proba lib forest v)
}.

(** What [handle_client] sends: the document of a bundle or of an error. *)
Definition document (response : json) : Prop :=
  (exists b, response = bundle_response b) \/ (exists e, response = error_response e).

(** ** Predicates of the further properties *)

(** A method keeps the invariant [I] of the engine, whether it returns or
    raises, and what it returns from an engine with [I] satisfies [Q]. *)
Definition keeps {A : Type} (I : QuantBackend -> Prop) (c : M A) (Q : A -> Prop) : Prop :=
  forall self, I self -> I (fst (c self)) /\ forall a, snd (c self) = Ok a -> Q a.

(** Two engines that differ at most in the correlation matrix. *)
Definition agree (s1 s2 : QuantBackend) : Prop :=
  kalman_filter s1 = kalman_filter s2
  /\ hmm_model s1 = hmm_model s2
  /\ pca s1 = pca s2
  /\ rf_classifier s1 = rf_classifier s2
  /\ regime_history s1 = regime_history s2.

(** A method that does not read the correlation matrix: on engines that
    agree it gives one result and engines that agree. *)
Definition blind {A : Type} (c : M A) : Prop :=
  forall s1 s2, agree s1 s2 -> agree (fst (c s1)) (fst (c s2)) /\ snd (c s1) = snd (c s2).


(** The engine of an [MT5Server]: made by [QuantBackend()] in [__init__] and
    then given requests by [handle_client], which calls no other method.
    The requests are taken one after the other; sessions running on separate
    threads are not interleaved here. *)
Inductive served : QuantBackend -> Prop :=
| served_init : served init
| served_process self data_json :
    served self -> served (fst (process_mt5_data data_json self)).

(** No estimator has been initialized or fitted: there is no Kalman filter,
    the forest and the PCA are as [__init__] made them, and the regime
    classifier is cold. *)
Definition idle (self : QuantBackend) : Prop :=
  kalman_filter self = None
  /\ rf_classifier self = None
  /\ pca self = None
  /\ cold self.


(** Each price is below the one before. *)
Fixpoint falling (l : list R) : Prop :=
  match l with
  | x :: ((y :: _) as rest) => y < x /\ falling rest
  | _ => True
  end.

(** A chunk [handle_client] answers: not empty, and it decodes. *)
Definition answerable (data : list byte) : Prop :=
  data <> [] /\ exists text, decode lib data = Ok text.



(** * Properties *)

(** ** Comparisons *)

Lemma Reqb_true (a b : R) : a = b -> Reqb a b = true.
Proof. intros E. unfold Reqb. destruct (Req_dec_T a b); [reflexivity | contradiction]. Qed.

Lemma Reqb_false (a b : R) : a <> b -> Reqb a b = false.
Proof. intros E. unfold Reqb. destruct (Req_dec_T a b); [contradiction | reflexivity]. Qed.

Lemma Rgtb_true_iff (a b : R) : Rgtb a b = true <-> a > b.
Proof.
  unfold Rgtb. destruct (Rlt_dec b a) as [L | L]; split; intros G.
  - exact L.
  - reflexivity.
  - discriminate G.
  - contradiction.
Qed.

Lemma Rltb_true_iff (a b : R) : Rltb a b = true <-> a < b.
Proof.
  unfold Rltb. destruct (Rlt_dec a b) as [L | L]; split; intros G.
  - exact L.
  - reflexivity.
  - discriminate G.
  - contradiction.
Qed.

(** ** The state estimator *)

Lemma update_returns (kf : KalmanFilter) (z : R) :
  innovation_variance kf <> 0 -> exists kf', update kf z = Ok kf'.
Proof.
  intros S. unfold update. rewrite (Reqb_false _ _ S). eexists. reflexivity.
Qed.

Lemma update_raises (kf : KalmanFilter) (z : R) :
  innovation_variance kf = 0 -> update kf z = Raise (LinAlgError "Singular matrix").
Proof.
  intros S. unfold update. rewrite (Reqb_true _ _ S). reflexivity.
Qed.

Lemma calculate_zscore_none (spread : value) (self : QuantBackend) :
  kalman_filter self = None -> calculate_zscore spread self = (self, Ok (VNum 0)).
Proof. intros E. unfold calculate_zscore. rewrite E. reflexivity. Qed.

(** C8.  Before [initialize_kalman_filter] has been called the z-score is
    exactly 0.0, whatever the observation, and the engine is unchanged; and
    when the variance under the square root of the denominator is zero the
    result is 0.0, with no division. *)
Theorem calculate_zscore_guards :
  (forall spread self,
      kalman_filter self = None ->
      calculate_zscore spread self = (self, Ok (VNum 0)))
  /\ (forall spread self kf kf',
        kalman_filter self = Some kf ->
        kalman_update (predict kf) spread = Ok kf' ->
        m00 (kf_P kf') = 0 ->
        calculate_zscore spread self = (set_kalman_filter self (Some kf'), Ok (VNum 0))).
Proof.
  split.
  - exact calculate_zscore_none.
  - intros spread self kf kf' E U V. unfold calculate_zscore. rewrite E, U.
    rewrite V, sqrt_0, (Reqb_true 0 0 eq_refl). reflexivity.
Qed.

Lemma calculate_zscore_scalar (z : R) (self : QuantBackend) (kf kf' : KalmanFilter) :
  kalman_filter self = Some kf ->
  update (predict kf) z = Ok kf' ->
  calculate_zscore (VNum z) self
  = (set_kalman_filter self (Some kf'),
     Ok (VNum (if Reqb (sqrt (m00 (kf_P kf'))) 0 then 0 else updated_zscore kf' z))).
Proof.
  intros E U. unfold calculate_zscore, kalman_update. rewrite E, U.
  unfold standardize, updated_zscore.
  destruct (Reqb (sqrt (m00 (kf_P kf'))) 0); reflexivity.
Qed.

Lemma Reqb_false_inv (a b : R) : Reqb a b = false -> a <> b.
Proof. unfold Reqb. destruct (Req_dec_T a b); [discriminate | trivial]. Qed.

Lemma innovation_variance_level (kf : KalmanFilter) :
  kf_H kf = (1, 0) -> innovation_variance kf = m00 (kf_P kf) + kf_R kf.
Proof.
  destruct kf as [x [[p00 p01] [p10 p11]] F H r Q]. simpl. intros ->.
  evaluate_filter. lra.
Qed.

(** What [predict] does to a configured filter: the variance of the level
    grows by the process noise 0.01. *)
Lemma predict_configured (kf : KalmanFilter) :
  configured kf ->
  kf_F (predict kf) = eye2
  /\ kf_H (predict kf) = (1, 0)
  /\ kf_R (predict kf) = 0.1
  /\ kf_Q (predict kf) = mscale 0.01 eye2
  /\ m00 (kf_P (predict kf)) = m00 (kf_P kf) + 0.01.
Proof.
  destruct kf as [x [[p00 p01] [p10 p11]] F H r Q].
  intros (EF & EH & ER & EQ & V). simpl in EF, EH, ER, EQ. subst F H r Q.
  repeat split. evaluate_filter. lra.
Qed.

(** What [update] does to the variance of the level when the level is what
    is observed: it becomes [R p / (p + R)]. *)
Lemma update_level_variance (kf kf' : KalmanFilter) (z : R) :
  kf_H kf = (1, 0) ->
  update kf z = Ok kf' ->
  m00 (kf_P kf') = kf_R kf * m00 (kf_P kf) / (m00 (kf_P kf) + kf_R kf)
  /\ kf_F kf' = kf_F kf /\ kf_H kf' = kf_H kf /\ kf_R kf' = kf_R kf /\ kf_Q kf' = kf_Q kf.
Proof.
  intros EH U. unfold update in U.
  destruct (Reqb (innovation_variance kf) 0) eqn:Z; [discriminate U |].
  apply Reqb_false_inv in Z. rewrite (innovation_variance_level kf EH) in *.
  injection U as <-. simpl. repeat split.
  destruct kf as [x [[p00 p01] [p10 p11]] F H r Q]. simpl in *. subst H.
  evaluate_filter. unfold m00 in Z. simpl in Z. field. exact Z.
Qed.

(** One step of a configured filter: the innovation variance is positive,
    so [update] returns; the filter stays configured; and the variance of the
    level after the update is positive. *)
Lemma configured_step (kf : KalmanFilter) (z : R) :
  configured kf ->
  exists kf',
    update (predict kf) z = Ok kf' /\ configured kf' /\ 0 < m00 (kf_P kf').
Proof.
  intros C. pose proof C as (_ & _ & _ & _ & V).
  destruct (predict_configured kf C) as (EF & EH & ER & EQ & EP).
  assert (innovation_variance (predict kf) <> 0) as S
    by (rewrite (innovation_variance_level _ EH), EP, ER; lra).
  destruct (update_returns (predict kf) z S) as [kf' U]. exists kf'.
  destruct (update_level_variance (predict kf) kf' z EH U) as (W & WF & WH & WR & WQ).
  rewrite EP, ER in W.
  assert (0 < m00 (kf_P kf')) as Pos.
  { rewrite W. apply Rdiv_lt_0_compat; lra. }
  split; [exact U |]. split; [| exact Pos].
  unfold configured. rewrite WF, WH, WR, WQ, EF, EH, ER, EQ. repeat split. lra.
Qed.

(** C3, as the code has it.  On an estimator initialized as
    [initialize_kalman_filter] does, with a variance of the level that is
    not negative, every scalar observation is first predicted on and then
    blended in; the call returns, the z-score is the observation minus the
    level after the update step, divided by the square root of the variance
    after the update step, and the estimator is again as before the call, so
    the same holds for the next observation. *)
Theorem calculate_zscore_uses_updated_state (z : R) (self : QuantBackend) (kf : KalmanFilter) :
  kalman_filter self = Some kf ->
  configured kf ->
  exists kf',
    update (predict kf) z = Ok kf'
    /\ configured kf'
    /\ calculate_zscore (VNum z) self
       = (set_kalman_filter self (Some kf'), Ok (VNum (updated_zscore kf' z))).
Proof.
  intros E C. destruct (configured_step kf z C) as (kf' & U & C' & Pos).
  exists kf'. split; [exact U |]. split; [exact C' |].
  rewrite (calculate_zscore_scalar z self kf kf' E U).
  rewrite Reqb_false; [reflexivity |].
  apply Rgt_not_eq, sqrt_lt_R0, Pos.
Qed.

(** ** The regime classifier *)

Lemma detect_regime_guard (price_data : value) (self : QuantBackend) :
  (List.length (regime_history self) < 100)%nat ->
  detect_regime price_data self = (self, Ok false).
Proof.
  intros L. unfold detect_regime.
  destruct (Nat.ltb_spec (List.length (regime_history self)) 100) as [_ | G].
  - reflexivity.
  - lia.
Qed.

(** ** The hedge estimator *)

Lemma bind_returns {A B : Type} (c : M A) (k : A -> M B) self self' b :
  bind c k self = (self', Ok b) ->
  exists a self1, c self = (self1, Ok a) /\ k a self1 = (self', Ok b).
Proof.
  unfold bind. destruct (c self) as [self1 [a | e]]; intros E.
  - exists a, self1. split; [reflexivity | exact E].
  - discriminate E.
Qed.

Lemma lift_returns {A : Type} (r : result A) self self' a :
  lift r self = (self', Ok a) -> self' = self /\ r = Ok a.
Proof. unfold lift. intros E. injection E as E1 E2. split; congruence. Qed.

(** The guard of [calculate_hedge_ratio]: a bare float, the engine unchanged. *)
Lemma calculate_hedge_ratio_guard (a b : list R) (self : QuantBackend) :
  (List.length a < 2 \/ List.length b < 2)%nat ->
  calculate_hedge_ratio (VVec a) (VVec b) self = (self, Ok (HFloat 0)).
Proof.
  intros L. unfold calculate_hedge_ratio, bind, lift, ret, len.
  destruct (Nat.ltb_spec (List.length a) 2) as [_ | Ga]; [reflexivity |].
  destruct (Nat.ltb_spec (List.length b) 2) as [_ | Gb]; [reflexivity |].
  lia.
Qed.

(** What a call that returns the dictionary has done to the correlation
    matrix, and where its correlation comes from. *)
Lemma calculate_hedge_ratio_dict (pair1 pair2 : value) self self' r b h :
  calculate_hedge_ratio pair1 pair2 self = (self', Ok (HDict r b h)) ->
  np_corrcoef pair1 pair2 = Ok r
  /\ correlation_matrix self'
     = Some match correlation_matrix self with
            | None => seed r
            | Some m => madd (mscale 0.95 m) (mscale 0.05 (seed r))
            end.
Proof.
  unfold calculate_hedge_ratio. intros E.
  apply bind_returns in E. destruct E as (n1 & s1 & E1 & E).
  apply lift_returns in E1. destruct E1 as [-> _].
  destruct (n1 <? 2)%nat; [discriminate E |].
  apply bind_returns in E. destruct E as (n2 & s2 & E2 & E).
  apply lift_returns in E2. destruct E2 as [-> _].
  destruct (n2 <? 2)%nat; [discriminate E |].
  apply bind_returns in E. destruct E as (r' & s3 & E3 & E).
  apply lift_returns in E3. destruct E3 as [-> C].
  apply bind_returns in E. destruct E as (c & s4 & E4 & E).
  apply lift_returns in E4. destruct E4 as [-> _].
  apply bind_returns in E. destruct E as (v & s5 & E5 & E).
  apply lift_returns in E5. destruct E5 as [-> _].
  apply bind_returns in E. destruct E as ([] & s6 & E6 & E).
  apply bind_returns in E. destruct E as (d1 & s7 & E7 & E).
  apply lift_returns in E7. destruct E7 as [-> _].
  apply bind_returns in E. destruct E as (d2 & s8 & E8 & E).
  apply lift_returns in E8. destruct E8 as [-> _].
  unfold ret in E. injection E as -> -> _ _.
  split; [exact C |].
  destruct (correlation_matrix self); injection E6 as <-; reflexivity.
Qed.

(** C4, what the code does.  On series of one and of two observations the
    estimator returns the bare float 0.0, not a dictionary, and reading the
    key [correlation] of that result, as [process_mt5_data] does, raises. *)
Theorem calculate_hedge_ratio_short_returns_float (self : QuantBackend) :
  calculate_hedge_ratio (VVec [1]) (VVec [1; 2]) self = (self, Ok (HFloat 0))
  /\ hedge_correlation (HFloat 0) = Raise (TypeError "'float' object is not subscriptable").
Proof.
  split.
  - apply calculate_hedge_ratio_guard. left. simpl. lia.
  - reflexivity.
Qed.

(** C5.  A first call that returns the dictionary with correlation [r],
    on an engine without a correlation matrix, sets the matrix to
    [[1, r], [r, 1]]; after a second such call with correlation [r2] the
    entry (0, 1) is [0.95 * r + 0.05 * r2].  Both correlations are what
    [np.corrcoef] gives for the pairs. *)
Theorem correlation_matrix_smoothing
    (pair1 pair2 pair1' pair2' : value) (self self1 self2 : QuantBackend)
    (r b h r2 b2 h2 : R) :
  correlation_matrix self = None ->
  calculate_hedge_ratio pair1 pair2 self = (self1, Ok (HDict r b h)) ->
  calculate_hedge_ratio pair1' pair2' self1 = (self2, Ok (HDict r2 b2 h2)) ->
  np_corrcoef pair1 pair2 = Ok r
  /\ np_corrcoef pair1' pair2' = Ok r2
  /\ correlation_matrix self1 = Some ((1, r), (r, 1))
  /\ exists m, correlation_matrix self2 = Some m /\ m01 m = 0.95 * r + 0.05 * r2.
Proof.
  intros N E1 E2.
  apply calculate_hedge_ratio_dict in E1. destruct E1 as [C1 M1].
  apply calculate_hedge_ratio_dict in E2. destruct E2 as [C2 M2].
  rewrite N in M1. rewrite M1 in M2.
  repeat split; try assumption.
  eexists. split; [exact M2 |].
  unfold madd, mscale, seed, m01. simpl. reflexivity.
Qed.

(** ** The bundle *)

Lemma assemble_flags
    (zscore : value) (regime : bool) (ml_prob : R) (hedge_data : hedge_result)
    (stop_signal : bool) (b : bundle) :
  assemble zscore regime ml_prob hedge_data stop_signal = Ok b ->
  kalmanSignal b = Rgtb (Rabs (zScore b)) 2.0 /\ hedgeSignal b = Rgtb (correlation b) 0.7.
Proof.
  unfold assemble, rbind. intros E.
  destruct (py_float zscore) as [z | e]; [| discriminate E].
  destruct (hedge_correlation hedge_data) as [corr | e]; [| discriminate E].
  injection E as <-. split; reflexivity.
Qed.

(** C6.  In a bundle the dictionary literal builds, [kalmanSignal] is true
    exactly when [|zScore| > 2.0] (so a z-score of exactly 2.0 gives false),
    and [hedgeSignal] is true exactly when [correlation > 0.7]. *)
Theorem assemble_thresholds
    (zscore : value) (regime : bool) (ml_prob : R) (hedge_data : hedge_result)
    (stop_signal : bool) (b : bundle) :
  assemble zscore regime ml_prob hedge_data stop_signal = Ok b ->
  (kalmanSignal b = true <-> Rabs (zScore b) > 2.0)
  /\ (hedgeSignal b = true <-> correlation b > 0.7)
  /\ (zScore b = 2.0 -> kalmanSignal b = false).
Proof.
  intros E. destruct (assemble_flags _ _ _ _ _ _ E) as [K Hd]. rewrite K, Hd.
  split; [apply Rgtb_true_iff |]. split; [apply Rgtb_true_iff |].
  intros ->. unfold Rgtb. destruct (Rlt_dec 2.0 (Rabs 2.0)) as [L | L]; [| reflexivity].
  rewrite Rabs_pos_eq in L; lra.
Qed.

(** ** [process_mt5_data] on the documented wire format *)

Lemma diff_length (l : list R) : List.length (diff l) = (List.length l - 1)%nat.
Proof.
  induction l as [| x [| y rest] IH].
  - reflexivity.
  - reflexivity.
  - change (diff (x :: y :: rest)) with ((y - x) :: diff (y :: rest)).
    simpl List.length in *. rewrite IH. lia.
Qed.

Lemma tail_length {A : Type} (n : nat) (l : list A) :
  List.length (tail n l) = Nat.min n (List.length l).
Proof. unfold tail. rewrite length_skipn. lia. Qed.

(** The three columns of the feature matrix never have one length: the
    differences of a non-empty window are one fewer than the window. *)
Lemma column_stack_window_raises (xs vs : list R) :
  xs <> [] ->
  column_stack (VVec (tail 20 xs)) (VVec (tail 20 vs)) (VVec (diff (tail 20 xs)))
  = Raise mismatch.
Proof.
  intros N. unfold column_stack.
  rewrite diff_length, !tail_length.
  assert (0 < List.length xs)%nat as P by (destruct xs; [contradiction | simpl; lia]).
  destruct (Nat.eqb_spec (Nat.min 20 (List.length xs)) (Nat.min 20 (List.length vs))) as [E | E];
    [| reflexivity].
  destruct (Nat.eqb_spec (Nat.min 20 (List.length vs)) (Nat.min 20 (List.length xs) - 1)) as [F | F];
    [| reflexivity].
  lia.
Qed.

Lemma np_array_numbers (l : list json) (xs : list R) :
  numbers l = Some xs -> np_array (JArr l) = Ok (VVec xs).
Proof. intros E. unfold np_array. rewrite E. reflexivity. Qed.

Lemma getitem_last_vec (xs : list R) :
  xs <> [] -> getitem_last (VVec xs) = Ok (VNum (last xs 0)).
Proof. intros N. destruct xs; [contradiction | reflexivity]. Qed.

(** The response is one of the two documents, and which one is decided by
    whether the body of the [try] statement returned or raised. *)
Lemma process_mt5_data_cases (data_json : string) (self : QuantBackend) :
  (exists self' b, signals data_json self = (self', Ok b)
                   /\ process_mt5_data data_json self = (self', bundle_response b))
  \/ (exists self' e, signals data_json self = (self', Raise e)
                      /\ process_mt5_data data_json self = (self', error_response e)).
Proof.
  unfold process_mt5_data. destruct (signals data_json self) as [self' [b | e]].
  - left. exists self', b. split; reflexivity.
  - right. exists self', e. split; reflexivity.
Qed.

Lemma process_mt5_data_raised (data_json : string) (self self' : QuantBackend) (e : exn) :
  signals data_json self = (self', Raise e) ->
  process_mt5_data data_json self = (self', error_response e).
Proof. intros E. unfold process_mt5_data. rewrite E. reflexivity. Qed.

(** The body of the [try] statement on a request whose [prices] and
    [volumes] are arrays of numbers, with at least one price: the z-score
    and the regime are computed, and then stacking the feature matrix raises. *)
Lemma signals_one_dimensional
    (data_json : string) (self : QuantBackend) (data : json)
    (lp lv : list json) (xs vs : list R) :
  json_loads lib data_json = Ok data ->
  getitem data "prices" = Ok (JArr lp) -> numbers lp = Some xs ->
  getitem data "volumes" = Ok (JArr lv) -> numbers lv = Some vs ->
  xs <> [] ->
  signals data_json self
  = match calculate_zscore (VNum (last xs 0)) self with
    | (self1, Raise e) => (self1, Raise e)
    | (self1, Ok _) =>
        match detect_regime (VVec xs) self1 with
        | (self2, Raise e) => (self2, Raise e)
        | (self2, Ok _) => (self2, Raise mismatch)
        end
    end.
Proof.
  intros L P NP V NV N. unfold signals.
  unfold bind at 1. unfold lift at 1. rewrite L.
  unfold bind at 1. unfold lift at 1. rewrite P. unfold rbind at 1.
  rewrite (np_array_numbers _ _ NP).
  unfold bind at 1. unfold lift at 1. rewrite V. unfold rbind at 1.
  rewrite (np_array_numbers _ _ NV).
  unfold bind at 1. unfold lift at 1. rewrite (getitem_last_vec _ N).
  unfold bind at 1.
  destruct (calculate_zscore (VNum (last xs 0)) self) as [self1 [zscore | e]];
    [| reflexivity].
  unfold bind at 1.
  destruct (detect_regime (VVec xs) self1) as [self2 [regime | e]];
    [| reflexivity].
  unfold bind at 1. unfold lift at 1. unfold tail20 at 1.
  unfold bind at 1. unfold lift at 1. unfold tail20 at 1.
  unfold bind at 1. unfold lift at 1. unfold tail20 at 1. unfold rbind at 1.
  unfold np_diff at 1. unfold series at 1.
  unfold bind at 1. unfold lift at 1.
  rewrite (column_stack_window_raises _ vs N).
  reflexivity.
Qed.

(** With no price at all, reading the latest price raises first. *)
Lemma signals_no_price
    (data_json : string) (self : QuantBackend) (data : json) (lp lv : list json)
    (vs : list R) :
  json_loads lib data_json = Ok data ->
  getitem data "prices" = Ok (JArr lp) -> numbers lp = Some [] ->
  getitem data "volumes" = Ok (JArr lv) -> numbers lv = Some vs ->
  signals data_json self
  = (self, Raise (IndexError "index -1 is out of bounds for axis 0 with size 0")).
Proof.
  intros L P NP V NV. unfold signals.
  unfold bind at 1. unfold lift at 1. rewrite L.
  unfold bind at 1. unfold lift at 1. rewrite P. unfold rbind at 1.
  rewrite (np_array_numbers _ _ NP).
  unfold bind at 1. unfold lift at 1. rewrite V. unfold rbind at 1.
  rewrite (np_array_numbers _ _ NV).
  reflexivity.
Qed.

Lemma signals_one_dimensional_raises
    (data_json : string) (self : QuantBackend) (data : json)
    (lp lv : list json) (xs vs : list R) :
  json_loads lib data_json = Ok data ->
  getitem data "prices" = Ok (JArr lp) -> numbers lp = Some xs ->
  getitem data "volumes" = Ok (JArr lv) -> numbers lv = Some vs ->
  exists self' e, signals data_json self = (self', Raise e).
Proof.
  intros L P NP V NV. destruct xs as [| x xs'] eqn:EX.
  - rewrite (signals_no_price data_json self data lp lv vs L P NP V NV).
    eexists _, _. reflexivity.
  - rewrite <- EX in *. assert (xs <> []) as N by (rewrite EX; discriminate).
    rewrite (signals_one_dimensional data_json self data lp lv xs vs L P NP V NV N).
    destruct (calculate_zscore (VNum (last xs 0)) self) as [self1 [zscore | e]];
      [| eexists _, _; reflexivity].
    destruct (detect_regime (VVec xs) self1) as [self2 [regime | e]];
      eexists _, _; reflexivity.
Qed.

(** C2.  For a request whose [prices] and [volumes] are one-dimensional
    arrays of numbers, in every state of the engine, [process_mt5_data]
    returns the error document and never a bundle: the body raises,
    at the latest when the last 20 prices, the last 20 volumes and the
    differences of the last 20 prices are stacked. *)
Theorem process_mt5_data_one_dimensional_is_error
    (data_json : string) (self : QuantBackend) (data : json)
    (lp lv : list json) (xs vs : list R) :
  json_loads lib data_json = Ok data ->
  getitem data "prices" = Ok (JArr lp) -> numbers lp = Some xs ->
  getitem data "volumes" = Ok (JArr lv) -> numbers lv = Some vs ->
  (exists self' e, process_mt5_data data_json self = (self', error_response e))
  /\ (forall b, snd (process_mt5_data data_json self) <> bundle_response b)
  /\ (xs = [] ->
      signals data_json self
      = (self, Raise (IndexError "index -1 is out of bounds for axis 0 with size 0")))
  /\ (xs <> [] ->
      signals data_json self
      = match calculate_zscore (VNum (last xs 0)) self with
        | (self1, Raise e) => (self1, Raise e)
        | (self1, Ok _) =>
            match detect_regime (VVec xs) self1 with
            | (self2, Raise e) => (self2, Raise e)
            | (self2, Ok _) => (self2, Raise mismatch)
            end
        end).
Proof.
  intros L P NP V NV.
  destruct (signals_one_dimensional_raises data_json self data lp lv xs vs L P NP V NV)
    as (self' & e & E).
  rewrite (process_mt5_data_raised _ _ _ _ E). split; [| split; [| split]].
  - exists self', e. reflexivity.
  - intros b. simpl. unfold error_response, bundle_response. discriminate.
  - intros ->. apply (signals_no_price data_json self data lp lv vs L P NP V NV).
  - apply (signals_one_dimensional data_json self data lp lv xs vs L P NP V NV).
Qed.

(** On a fresh engine the exception of such a request with at least one
    price is the length mismatch of [np.column_stack], and the engine is
    unchanged. *)
Lemma signals_fresh_mismatch
    (data_json : string) (data : json) (lp lv : list json) (xs vs : list R) :
  json_loads lib data_json = Ok data ->
  getitem data "prices" = Ok (JArr lp) -> numbers lp = Some xs ->
  getitem data "volumes" = Ok (JArr lv) -> numbers lv = Some vs ->
  xs <> [] ->
  signals data_json init = (init, Raise mismatch).
Proof.
  intros L P NP V NV N.
  rewrite (signals_one_dimensional data_json init data lp lv xs vs L P NP V NV N).
  rewrite (calculate_zscore_none _ init eq_refl).
  rewrite (detect_regime_guard (VVec xs) init) by (simpl; lia).
  reflexivity.
Qed.

(** C1, what the code does.  On a fresh engine the request with prices
    [1..30] and thirty volumes of 100 is answered with the error document of
    [np.column_stack]'s length mismatch (20, 20 and 19 rows), not with a
    bundle; the engine stays fresh. *)
Theorem process_mt5_data_sample_request_is_error (data_json : string) :
  json_loads lib data_json = Ok sample_request ->
  process_mt5_data data_json init = (init, error_response mismatch).
Proof.
  intros L. apply process_mt5_data_raised.
  apply (signals_fresh_mismatch data_json sample_request
           (map JNum sample_prices) (repeat (JNum 100) 30)
           sample_prices (repeat 100 30) L);
    try reflexivity.
  discriminate.
Qed.

(** ** The regime history *)

Lemma keeps_cold_lift {A : Type} (r : result A) : keeps_cold (lift r) (fun a => r = Ok a).
Proof. intros self C. split; [exact C | intros a E; exact E]. Qed.

Lemma keeps_cold_ret {A : Type} (a : A) : keeps_cold (ret a) (fun a' => a' = a).
Proof. intros self C. split; [exact C | intros a' E; simpl in E; congruence]. Qed.

Lemma keeps_cold_weaken {A : Type} (c : M A) (Q Q' : A -> Prop) :
  keeps_cold c Q -> (forall a, Q a -> Q' a) -> keeps_cold c Q'.
Proof.
  intros K W self C. destruct (K self C) as [C' R]. split; [exact C' |].
  intros a E. apply W, R, E.
Qed.

Lemma keeps_cold_bind {A B : Type} (c : M A) (k : A -> M B) (Q1 : A -> Prop) (Q2 : B -> Prop) :
  keeps_cold c Q1 -> (forall a, Q1 a -> keeps_cold (k a) Q2) -> keeps_cold (bind c k) Q2.
Proof.
  intros K1 K2 self C. destruct (K1 self C) as [C1 R1]. unfold bind.
  destruct (c self) as [self1 [a | e]]; simpl in *.
  - apply (K2 a (R1 a eq_refl) self1 C1).
  - split; [exact C1 | intros b E; discriminate E].
Qed.

Lemma keeps_cold_any {A : Type} (c : M A) (Q : A -> Prop) :
  keeps_cold c Q -> keeps_cold c (fun _ => True).
Proof. intros K. apply (keeps_cold_weaken c Q); [exact K | trivial]. Qed.

Lemma keeps_cold_initialize x0 p0 : keeps_cold (initialize_kalman_filter x0 p0) (fun _ => True).
Proof. intros self C. split; [exact C | trivial]. Qed.

Lemma keeps_cold_calculate_zscore spread : keeps_cold (calculate_zscore spread) (fun _ => True).
Proof.
  intros self C. split; [| trivial]. unfold calculate_zscore.
  destruct (kalman_filter self) as [kf |]; [| exact C].
  destruct (kalman_update (predict kf) spread); exact C.
Qed.

Lemma keeps_cold_detect_regime price_data :
  keeps_cold (detect_regime price_data) (fun regime => regime = false).
Proof.
  intros self C. rewrite detect_regime_guard.
  - split; [exact C | intros a E; simpl in E; congruence].
  - destruct C as [H _]. rewrite H. simpl. lia.
Qed.

Lemma keeps_cold_detect_cointegration s1 s2 :
  keeps_cold (detect_cointegration s1 s2) (fun _ => True).
Proof. unfold detect_cointegration. eapply keeps_cold_any, keeps_cold_lift. Qed.

Lemma keeps_cold_calculate_pca_signals m :
  keeps_cold (calculate_pca_signals m) (fun _ => True).
Proof.
  intros self C. split; [| trivial]. unfold calculate_pca_signals.
  destruct (pca_fit lib m); exact C.
Qed.

Lemma keeps_cold_calculate_ml_probability features :
  keeps_cold (calculate_ml_probability features) (fun _ => True).
Proof.
  intros self C. split; [| trivial]. unfold calculate_ml_probability.
  destruct (rf_classifier self); exact C.
Qed.

Lemma keeps_cold_calculate_hedge_ratio pair1 pair2 :
  keeps_cold (calculate_hedge_ratio pair1 pair2) (fun _ => True).
Proof.
  unfold calculate_hedge_ratio.
  eapply keeps_cold_bind; [apply keeps_cold_lift |]. intros n1 _.
  destruct (n1 <? 2)%nat; [eapply keeps_cold_any, keeps_cold_ret |].
  eapply keeps_cold_bind; [apply keeps_cold_lift |]. intros n2 _.
  destruct (n2 <? 2)%nat; [eapply keeps_cold_any, keeps_cold_ret |].
  eapply keeps_cold_bind; [apply keeps_cold_lift |]. intros r _.
  eapply keeps_cold_bind; [apply keeps_cold_lift |]. intros c _.
  eapply keeps_cold_bind; [apply keeps_cold_lift |]. intros v _.
  eapply keeps_cold_bind with (Q1 := fun _ => True).
  - intros self C. split; [| trivial]. destruct (correlation_matrix self); exact C.
  - intros _ _.
    eapply keeps_cold_bind; [apply keeps_cold_lift |]. intros d1 _.
    eapply keeps_cold_bind; [apply keeps_cold_lift |]. intros d2 _.
    eapply keeps_cold_any, keeps_cold_ret.
Qed.

Lemma keeps_cold_calculate_optimal_stop position_data :
  keeps_cold (calculate_optimal_stop position_data) (fun _ => True).
Proof.
  unfold calculate_optimal_stop.
  eapply keeps_cold_bind; [apply keeps_cold_lift |]. intros n _.
  destruct (n <? 2)%nat; [eapply keeps_cold_any, keeps_cold_ret |].
  eapply keeps_cold_bind; [apply keeps_cold_lift |]. intros returns _.
  eapply keeps_cold_bind; [apply keeps_cold_lift |]. intros volatility _.
  eapply keeps_cold_bind; [apply keeps_cold_lift |]. intros expected_return _.
  eapply keeps_cold_any, keeps_cold_ret.
Qed.

Lemma assemble_regime zscore regime ml_prob hedge_data stop_signal b :
  assemble zscore regime ml_prob hedge_data stop_signal = Ok b ->
  isDirectionalRegime b = regime.
Proof.
  unfold assemble, rbind. intros E.
  destruct (py_float zscore); [| discriminate E].
  destruct (hedge_correlation hedge_data); [| discriminate E].
  injection E as <-. reflexivity.
Qed.

(** On a cold engine the body of the [try] statement leaves the engine
    cold, and a bundle it returns has the regime flag false. *)
Lemma keeps_cold_signals data_json :
  keeps_cold (signals data_json) (fun b => isDirectionalRegime b = false).
Proof.
  unfold signals.
  eapply keeps_cold_bind; [apply keeps_cold_lift |]. intros data _.
  eapply keeps_cold_bind; [apply keeps_cold_lift |]. intros prices _.
  eapply keeps_cold_bind; [apply keeps_cold_lift |]. intros volumes _.
  eapply keeps_cold_bind; [apply keeps_cold_lift |]. intros spread _.
  eapply keeps_cold_bind; [apply keeps_cold_calculate_zscore |]. intros zscore _.
  eapply keeps_cold_bind; [apply keeps_cold_detect_regime |]. intros regime ->.
  eapply keeps_cold_bind; [apply keeps_cold_lift |]. intros window _.
  eapply keeps_cold_bind; [apply keeps_cold_lift |]. intros volume_window _.
  eapply keeps_cold_bind; [apply keeps_cold_lift |]. intros differences _.
  eapply keeps_cold_bind; [apply keeps_cold_lift |]. intros features _.
  eapply keeps_cold_bind; [apply keeps_cold_calculate_ml_probability |]. intros ml_prob _.
  eapply keeps_cold_bind; [apply keeps_cold_lift |]. intros pair1 _.
  eapply keeps_cold_bind; [apply keeps_cold_lift |]. intros pair2 _.
  eapply keeps_cold_bind; [apply keeps_cold_calculate_hedge_ratio |]. intros hedge_data _.
  eapply keeps_cold_bind; [apply keeps_cold_calculate_optimal_stop |]. intros stop_signal _.
  eapply keeps_cold_weaken; [apply keeps_cold_lift |].
  intros b E. apply (assemble_regime _ _ _ _ _ _ E).
Qed.

Lemma cold_process_mt5_data data_json self :
  cold self -> cold (fst (process_mt5_data data_json self)).
Proof.
  intros C. destruct (keeps_cold_signals data_json self C) as [C' _].
  unfold process_mt5_data. destruct (signals data_json self) as [self' [b | e]]; exact C'.
Qed.

Lemma cold_step self c : cold self -> cold (step self c).
Proof.
  intros C. destruct c; simpl.
  - exact C.
  - apply (keeps_cold_calculate_zscore spread self C).
  - apply (keeps_cold_detect_cointegration series1 series2 self C).
  - apply (keeps_cold_detect_regime price_data self C).
  - apply (keeps_cold_calculate_pca_signals price_matrix self C).
  - apply (keeps_cold_calculate_ml_probability features self C).
  - apply (keeps_cold_calculate_hedge_ratio pair1 pair2 self C).
  - apply (keeps_cold_calculate_optimal_stop position_data self C).
  - apply cold_process_mt5_data, C.
Qed.

Lemma reachable_cold self : reachable self -> cold self.
Proof.
  induction 1 as [| self c _ IH].
  - split; reflexivity.
  - apply cold_step, IH.
Qed.

(** C10.  In every state reached from [QuantBackend()] by calls of its
    methods, with any arguments and whether they return or raise, the regime
    history is empty and no hidden-Markov model has been created; so the
    classifier returns false without touching the engine, and no response
    of [process_mt5_data] carries a regime flag other than false. *)
Theorem regime_history_stays_empty (self : QuantBackend) :
  reachable self ->
  regime_history self = []
  /\ hmm_model self = None
  /\ (forall price_data, detect_regime price_data self = (self, Ok false))
  /\ (forall data_json self' b,
        signals data_json self = (self', Ok b) -> isDirectionalRegime b = false)
  /\ (forall data_json v,
        lookup "isDirectionalRegime" (members (snd (process_mt5_data data_json self))) = Some v ->
        v = JBool false).
Proof.
  intros Re. pose proof (reachable_cold self Re) as C.
  assert (forall data_json self' b,
             signals data_json self = (self', Ok b) -> isDirectionalRegime b = false) as F.
  { intros data_json self' b E.
    destruct (keeps_cold_signals data_json self C) as [_ Q].
    apply Q. rewrite E. reflexivity. }
  destruct C as [H Hm]. repeat split; try assumption.
  - intros price_data. apply detect_regime_guard. rewrite H. simpl. lia.
  - intros data_json v.
    destruct (process_mt5_data_cases data_json self) as [(self' & b & S & E) | (self' & e & S & E)];
      rewrite E; simpl; intros L.
    + injection L as <-. rewrite (F data_json self' b S). reflexivity.
    + discriminate L.
Qed.

(** ** The boundary of [process_mt5_data] and the session loop *)

Lemma decode_error_message (msg : string) (lineno colno pos : nat) :
  str (JSONDecodeError msg lineno colno pos) <> "".
Proof. destruct msg; simpl; discriminate. Qed.

Lemma signals_malformed (data_json : string) (self : QuantBackend) (e : exn) :
  json_loads lib data_json = Raise e -> signals data_json self = (self, Raise e).
Proof. intros L. unfold signals. unfold bind at 1. unfold lift at 1. rewrite L. reflexivity. Qed.

(** The loop answers every chunk that is not empty and decodes, whatever
    the chunk asks for. *)
Lemma handle_client_answers_all (received : list (list byte)) :
  Forall (fun data => data <> [] /\ exists text, decode lib data = Ok text) received ->
  forall self, List.length (snd (handle_client received self)) = List.length received.
Proof.
  induction 1 as [| data rest [N [text D]] _ IH]; intros self.
  - reflexivity.
  - simpl. destruct data as [| c data']; [contradiction |].
    rewrite D. destruct (process_mt5_data text self) as [self' response].
    specialize (IH self'). destruct (handle_client rest self') as [self'' sent].
    simpl in *. rewrite IH. reflexivity.
Qed.

Lemma calculate_zscore_scalar_raises (z : R) (self self' : QuantBackend) (e : exn) :
  calculate_zscore (VNum z) self = (self', Raise e) -> e = LinAlgError "Singular matrix".
Proof.
  unfold calculate_zscore, kalman_update.
  destruct (kalman_filter self) as [kf |]; [| discriminate].
  unfold update. destruct (Reqb (innovation_variance (predict kf)) 0).
  - intros E. injection E as _ <-. reflexivity.
  - unfold standardize. match goal with |- context [if ?c then _ else _] => destruct c end;
      discriminate.
Qed.

(** On an engine whose regime classifier is cold, a request in the wire
    format is answered with an exception of the model's own, whose text is
    not empty. *)
Lemma signals_one_dimensional_message
    (data_json : string) (self : QuantBackend) (data : json)
    (lp lv : list json) (xs vs : list R) :
  cold self ->
  json_loads lib data_json = Ok data ->
  getitem data "prices" = Ok (JArr lp) -> numbers lp = Some xs ->
  getitem data "volumes" = Ok (JArr lv) -> numbers lv = Some vs ->
  exists self' e, signals data_json self = (self', Raise e) /\ str e <> "".
Proof.
  intros C L P NP V NV. destruct xs as [| x xs'] eqn:EX.
  - rewrite (signals_no_price data_json self data lp lv vs L P NP V NV).
    eexists _, _. split; [reflexivity | discriminate].
  - rewrite <- EX in *. assert (xs <> []) as N by (rewrite EX; discriminate).
    rewrite (signals_one_dimensional data_json self data lp lv xs vs L P NP V NV N).
    destruct (keeps_cold_calculate_zscore (VNum (last xs 0)) self C) as [[H _] _].
    destruct (calculate_zscore (VNum (last xs 0)) self) as [self1 [zscore | e]] eqn:Z.
    + simpl in H. rewrite detect_regime_guard by (rewrite H; simpl; lia).
      eexists _, _. split; [reflexivity | discriminate].
    + rewrite (calculate_zscore_scalar_raises _ _ _ _ Z).
      eexists _, _. split; [reflexivity | discriminate].
Qed.

Lemma getitem_message (data : json) (key : string) (e : exn) :
  getitem data key = Raise e -> str e <> "".
Proof.
  unfold getitem. destruct data as [| b | x | t | l | m]; try (intros E; injection E as <-; discriminate).
  destruct (lookup key m); [discriminate |].
  intros E. injection E as <-. discriminate.
Qed.

(** A document without the key [prices], or one that is not an object, or
    one with [prices] and without [volumes]: the lookup raises. *)
Lemma signals_missing_field (data_json : string) (self : QuantBackend) (data : json) (e : exn) :
  json_loads lib data_json = Ok data ->
  getitem data "prices" = Raise e
  \/ ((exists prices, rbind (getitem data "prices") np_array = Ok prices)
      /\ getitem data "volumes" = Raise e) ->
  signals data_json self = (self, Raise e).
Proof.
  intros L [P | [[prices P] V]]; unfold signals.
  - unfold bind at 1. unfold lift at 1. rewrite L.
    unfold bind at 1. unfold lift at 1. rewrite P. reflexivity.
  - unfold bind at 1. unfold lift at 1. rewrite L.
    unfold bind at 1. unfold lift at 1. rewrite P.
    unfold bind at 1. unfold lift at 1. rewrite V. reflexivity.
Qed.

(** A bundle [process_mt5_data] answers with is one the dictionary literal
    built. *)
Lemma signals_assembled (data_json : string) (self self' : QuantBackend) (b : bundle) :
  signals data_json self = (self', Ok b) ->
  exists zscore regime ml_prob hedge_data stop_signal,
    assemble zscore regime ml_prob hedge_data stop_signal = Ok b.
Proof.
  unfold signals. intros E.
  repeat (apply bind_returns in E; destruct E as (? & ? & _ & E)).
  apply lift_returns in E. destruct E as [_ E].
  eexists _, _, _, _, _. exact E.
Qed.

(** So the flags of every bundle [process_mt5_data] answers with are the
    two comparisons. *)
Lemma process_mt5_data_flags (data_json : string) (self self' : QuantBackend) (b : bundle) :
  signals data_json self = (self', Ok b) ->
  (kalmanSignal b = true <-> Rabs (zScore b) > 2.0)
  /\ (hedgeSignal b = true <-> correlation b > 0.7).
Proof.
  intros E. destruct (signals_assembled _ _ _ _ E) as (z & r & m & h & s & A).
  destruct (assemble_flags _ _ _ _ _ _ A) as [K Hd]. rewrite K, Hd.
  split; apply Rgtb_true_iff.
Qed.

(** *** Every exception of the body has a text *)

Lemma spoken_ok {A : Type} (a : A) : spoken (Ok a).
Proof. intros e E. discriminate E. Qed.

Lemma spoken_raise {A : Type} (e : exn) : str e <> "" -> spoken (@Raise A e).
Proof. intros N e' E. injection E as <-. exact N. Qed.

Lemma spoken_rbind {A B : Type} (r : result A) (k : A -> result B) :
  spoken r -> (forall a, spoken (k a)) -> spoken (rbind r k).
Proof.
  intros Hr Hk. unfold rbind. destruct r as [a | e].
  - apply Hk.
  - intros e' E. injection E as <-. apply Hr. reflexivity.
Qed.

Lemma informs_lift {A : Type} (r : result A) : spoken r -> informs (lift r).
Proof. intros Hr self self' e E. injection E as _ E. apply Hr, E. Qed.

Lemma informs_ret {A : Type} (a : A) : informs (ret a).
Proof. intros self self' e E. discriminate E. Qed.

Lemma informs_bind {A B : Type} (c : M A) (k : A -> M B) :
  informs c -> (forall a, informs (k a)) -> informs (bind c k).
Proof.
  intros Hc Hk self self' e. unfold bind.
  destruct (c self) as [self1 [a | e1]] eqn:E1.
  - apply Hk.
  - intros E. injection E as _ <-. apply (Hc _ _ _ E1).
Qed.

Section Informative.

Hypothesis talk : informative.

(** Solves [spoken] of a library call, of a value and of an exception the
    model raises itself. *)
Ltac speak :=
  first [ apply spoken_ok
        | apply spoken_raise; discriminate
        | apply (json_loads_spoken talk)
        | apply (array_spoken talk)
        | apply (getitem_last_spoken talk)
        | apply (tail20_spoken talk)
        | apply (diff_spoken talk)
        | apply (log_spoken talk)
        | apply (column_stack_spoken talk)
        | apply (len_spoken talk)
        | apply (corrcoef_spoken talk)
        | apply (cov_spoken talk)
        | apply (var_spoken talk)
        | apply (std_spoken talk)
        | apply (mean_spoken talk)
        | apply (float_spoken talk)
        | apply (reshape_spoken talk)
        | apply (standardize_spoken talk)
        | apply (update_spoken talk)
        | apply (hmm_predict_spoken talk)
        | apply (predict_proba_spoken talk) ].

Lemma spoken_getitem data key : spoken (getitem data key).
Proof. intros e E. apply (getitem_message data key e E). Qed.

Lemma spoken_np_array j : spoken (np_array j).
Proof. unfold np_array. destruct j; try speak. destruct (numbers l); speak. Qed.

Lemma spoken_getitem_last v : spoken (getitem_last v).
Proof. unfold getitem_last. destruct v as [x | [| x l] | rows | j | o]; speak. Qed.

Lemma spoken_tail20 v : spoken (tail20 v).
Proof. unfold tail20. destruct v; speak. Qed.

Lemma spoken_np_diff v : spoken (np_diff v).
Proof. unfold np_diff. destruct (series v); speak. Qed.

Lemma spoken_np_log v : spoken (np_log v).
Proof. unfold np_log. destruct (series v); [speak |]. destruct v; speak. Qed.

Lemma spoken_reshape_column v : spoken (reshape_column v).
Proof. unfold reshape_column. destruct v; speak. Qed.

Lemma spoken_mismatch {A : Type} : spoken (@Raise A mismatch).
Proof. apply spoken_raise. discriminate. Qed.

Lemma spoken_column_stack a b c : spoken (column_stack a b c).
Proof.
  unfold column_stack. destruct a; try speak. destruct b; try speak. destruct c; try speak.
  match goal with |- context [if ?t then _ else _] => destruct t end;
    [speak | apply spoken_mismatch].
Qed.

Lemma spoken_len v : spoken (len v).
Proof. unfold len. destruct v as [x | l | rows | [| b | x | t | l | m] | o]; speak. Qed.

Lemma spoken_np_corrcoef a b : spoken (np_corrcoef a b).
Proof.
  unfold np_corrcoef. destruct (series a); [| speak]. destruct (series b); [| speak].
  match goal with |- context [if ?t then _ else _] => destruct t end;
    [speak | apply spoken_mismatch].
Qed.

Lemma spoken_np_cov a b : spoken (np_cov a b).
Proof.
  unfold np_cov. destruct (series a); [| speak]. destruct (series b); [| speak].
  match goal with |- context [if ?t then _ else _] => destruct t end;
    [speak | apply spoken_mismatch].
Qed.

Lemma spoken_np_var v : spoken (np_var v).
Proof. unfold np_var. destruct (series v); speak. Qed.

Lemma spoken_np_std v : spoken (np_std v).
Proof. unfold np_std. destruct (series v); speak. Qed.

Lemma spoken_np_mean v : spoken (np_mean v).
Proof. unfold np_mean. destruct (series v); speak. Qed.

Lemma spoken_py_float v : spoken (py_float v).
Proof. unfold py_float. destruct v as [x | [| x [| y l]] | rows | j | o]; speak. Qed.

Lemma spoken_standardize v m s : spoken (standardize v m s).
Proof. unfold standardize. destruct v; speak. Qed.

Lemma spoken_get data key default : spoken (get data key default).
Proof.
  unfold get. destruct data as [| b | x | t | l | m]; try speak.
  destruct (lookup key m); speak.
Qed.

Lemma spoken_assemble zscore regime ml_prob hedge_data stop_signal :
  spoken (assemble zscore regime ml_prob hedge_data stop_signal).
Proof.
  unfold assemble. apply spoken_rbind; [apply spoken_py_float |]. intros z.
  apply spoken_rbind; [| intros corr; speak].
  unfold hedge_correlation. destruct hedge_data; speak.
Qed.

Lemma spoken_kalman_update kf spread : spoken (kalman_update kf spread).
Proof.
  unfold kalman_update. destruct spread; try speak.
  unfold update. destruct (Reqb (innovation_variance kf) 0); speak.
Qed.

Lemma informs_calculate_zscore spread : informs (calculate_zscore spread).
Proof.
  intros self self' e. unfold calculate_zscore.
  destruct (kalman_filter self) as [kf |]; [| discriminate].
  destruct (kalman_update (predict kf) spread) as [kf' | e1] eqn:U.
  - match goal with |- context [if ?t then _ else _] => destruct t end;
      [discriminate |].
    intros E. injection E as _ E. apply (spoken_standardize _ _ _ _ E).
  - intros E. injection E as _ <-. apply (spoken_kalman_update _ _ _ U).
Qed.

Lemma informs_detect_regime price_data : informs (detect_regime price_data).
Proof.
  intros self self' e. unfold detect_regime.
  destruct (List.length (regime_history self) <? 100)%nat; [discriminate |].
  destruct (rbind (rbind (np_log price_data) np_diff) reshape_column) as [returns | e1] eqn:Rt.
  - destruct (hmm_model self) as [m |] eqn:Hm.
    + destruct (rbind (hmm_predict lib m returns) last_label) as [label | e2] eqn:P.
      * match goal with |- context [if ?t then _ else _] => destruct t end; discriminate.
      * intros E. injection E as _ <-. revert P.
        apply spoken_rbind; [speak |]. intros regime. unfold last_label.
        destruct regime; speak.
    + destruct (hmm_fit lib returns) as [model [e1 |]] eqn:F.
      * intros E. injection E as _ <-.
        apply (hmm_fit_spoken talk returns). rewrite F. reflexivity.
      * destruct (rbind (hmm_predict lib model returns) last_label) as [label | e2] eqn:P.
        -- match goal with |- context [if ?t then _ else _] => destruct t end; discriminate.
        -- intros E. injection E as _ <-. revert P.
           apply spoken_rbind; [speak |]. intros regime. unfold last_label.
           destruct regime; speak.
  - intros E. injection E as _ <-. revert Rt.
    apply spoken_rbind; [| intros; apply spoken_reshape_column].
    apply spoken_rbind; [apply spoken_np_log | intros; apply spoken_np_diff].
Qed.

Lemma informs_calculate_ml_probability features : informs (calculate_ml_probability features).
Proof.
  intros self self' e. unfold calculate_ml_probability.
  destruct (rf_classifier self) as [forest |]; [| discriminate].
  intros E. injection E as _ E. apply (predict_proba_spoken talk _ _ _ E).
Qed.

Lemma informs_calculate_hedge_ratio pair1 pair2 : informs (calculate_hedge_ratio pair1 pair2).
Proof.
  unfold calculate_hedge_ratio.
  apply informs_bind; [apply informs_lift, spoken_len |]. intros n1.
  destruct (n1 <? 2)%nat; [apply informs_ret |].
  apply informs_bind; [apply informs_lift, spoken_len |]. intros n2.
  destruct (n2 <? 2)%nat; [apply informs_ret |].
  apply informs_bind; [apply informs_lift, spoken_np_corrcoef |]. intros r.
  apply informs_bind; [apply informs_lift, spoken_np_cov |]. intros c.
  apply informs_bind; [apply informs_lift, spoken_np_var |]. intros v.
  apply informs_bind.
  - intros self self' e. destruct (correlation_matrix self); discriminate.
  - intros _.
    apply informs_bind; [apply informs_lift, spoken_np_std |]. intros s1.
    apply informs_bind; [apply informs_lift, spoken_np_std |]. intros s2.
    apply informs_ret.
Qed.

Lemma informs_calculate_optimal_stop position_data :
  informs (calculate_optimal_stop position_data).
Proof.
  unfold calculate_optimal_stop.
  apply informs_bind; [apply informs_lift, spoken_len |]. intros n.
  destruct (n <? 2)%nat; [apply informs_ret |].
  apply informs_bind.
  { apply informs_lift, spoken_rbind; [apply spoken_np_log | intros; apply spoken_np_diff]. }
  intros returns.
  apply informs_bind; [apply informs_lift, spoken_np_std |]. intros volatility.
  apply informs_bind; [apply informs_lift, spoken_np_mean |]. intros expected_return.
  apply informs_ret.
Qed.

(** Whatever the request and the state of the engine, an exception of the
    body of the [try] statement has a text. *)
Lemma informs_signals data_json : informs (signals data_json).
Proof.
  unfold signals.
  apply informs_bind; [apply informs_lift; speak |]. intros data.
  apply informs_bind.
  { apply informs_lift, spoken_rbind; [apply spoken_getitem | apply spoken_np_array]. }
  intros prices.
  apply informs_bind.
  { apply informs_lift, spoken_rbind; [apply spoken_getitem | apply spoken_np_array]. }
  intros volumes.
  apply informs_bind; [apply informs_lift, spoken_getitem_last |]. intros spread.
  apply informs_bind; [apply informs_calculate_zscore |]. intros zscore.
  apply informs_bind; [apply informs_detect_regime |]. intros regime.
  apply informs_bind; [apply informs_lift, spoken_tail20 |]. intros window.
  apply informs_bind; [apply informs_lift, spoken_tail20 |]. intros volume_window.
  apply informs_bind.
  { apply informs_lift, spoken_rbind; [apply spoken_tail20 | apply spoken_np_diff]. }
  intros differences.
  apply informs_bind; [apply informs_lift, spoken_column_stack |]. intros features.
  apply informs_bind; [apply informs_calculate_ml_probability |]. intros ml_prob.
  apply informs_bind; [apply informs_lift, spoken_get |]. intros pair1.
  apply informs_bind; [apply informs_lift, spoken_get |]. intros pair2.
  apply informs_bind; [apply informs_calculate_hedge_ratio |]. intros hedge_data.
  apply informs_bind; [apply informs_calculate_optimal_stop |]. intros stop_signal.
  apply informs_lift, spoken_assemble.
Qed.

End Informative.

(** *** The session loop *)

(** One turn of the loop on a chunk that is not empty and decodes: the
    response sent is that of [process_mt5_data] on the decoded text, and the
    loop goes on with the engine [process_mt5_data] left, whether the body
    had raised or not. *)
Lemma handle_client_turn (data : list byte) (rest : list (list byte)) (text : string)
    (self : QuantBackend) :
  data <> [] ->
  decode lib data = Ok text ->
  handle_client (data :: rest) self
  = (fst (handle_client rest (fst (process_mt5_data text self))),
     snd (process_mt5_data text self)
     :: snd (handle_client rest (fst (process_mt5_data text self)))).
Proof.
  intros N D. simpl. destruct data as [| c data']; [contradiction N; reflexivity |].
  rewrite D. destruct (process_mt5_data text self) as [self' response]. simpl.
  destruct (handle_client rest self') as [self'' sent]. reflexivity.
Qed.

Lemma process_mt5_data_document (data_json : string) (self : QuantBackend) :
  document (snd (process_mt5_data data_json self)).
Proof.
  unfold process_mt5_data. destruct (signals data_json self) as [self' [b | e]]; simpl.
  - left. exists b. reflexivity.
  - right. exists e. reflexivity.
Qed.

Lemma handle_client_documents (received : list (list byte)) :
  forall self, Forall document (snd (handle_client received self)).
Proof.
  induction received as [| data rest IH]; intros self; [constructor |].
  simpl. destruct data as [| c data']; [constructor |].
  destruct (decode lib (c :: data')) as [text | e]; [| constructor].
  pose proof (process_mt5_data_document text self) as Dc.
  destruct (process_mt5_data text self) as [self' response].
  specialize (IH self'). destruct (handle_client rest self') as [self'' sent].
  simpl in *. constructor; assumption.
Qed.

(** C7.  For every request text and every state of the engine the response
    is either the document with exactly the seven keys of the bundle (when the
    body of the [try] statement returned) or the document with the single
    key [error] holding the text of the exception the body raised; the two
    documents are never equal, so it is never both and never a part of one.
    With a library whose exceptions carry a text, the message is not empty
    for every request in every state, malformed JSON included.  A text
    [json.loads] rejects, a request in the wire format on an engine reached
    from [QuantBackend()], and a document that lacks [prices] or [volumes] or
    is not an object are answered with a message that is not empty whatever
    the library.  In the session loop a chunk that is not empty and decodes
    is answered with the response of [process_mt5_data] on its text and the
    loop goes on with the next chunk, whether the body had raised or not; so
    every chunk of such a session gets its response, and everything the loop
    sends is one of the two documents. *)
Theorem process_mt5_data_catches_everything :
  (forall data_json self,
      (exists self' b,
          signals data_json self = (self', Ok b)
          /\ process_mt5_data data_json self = (self', bundle_response b)
          /\ keys (bundle_response b) = bundle_keys)
      \/ (exists self' e,
            signals data_json self = (self', Raise e)
            /\ process_mt5_data data_json self = (self', JObj [("error", JStr (str e))])))
  /\ (forall b e, bundle_response b <> error_response e)
  /\ (informative ->
      forall data_json self self' e,
        signals data_json self = (self', Raise e) ->
        process_mt5_data data_json self = (self', JObj [("error", JStr (str e))])
        /\ str e <> "")
  /\ (forall data_json self msg lineno colno pos,
        json_loads lib data_json = Raise (JSONDecodeError msg lineno colno pos) ->
        process_mt5_data data_json self
        = (self, JObj [("error", JStr (str (JSONDecodeError msg lineno colno pos)))])
        /\ str (JSONDecodeError msg lineno colno pos) <> "")
  /\ (forall data rest self text,
        data <> [] ->
        decode lib data = Ok text ->
        handle_client (data :: rest) self
        = (fst (handle_client rest (fst (process_mt5_data text self))),
           snd (process_mt5_data text self)
           :: snd (handle_client rest (fst (process_mt5_data text self)))))
  /\ (forall received self,
        Forall (fun data => data <> [] /\ exists text, decode lib data = Ok text) received ->
        List.length (snd (handle_client received self)) = List.length received)
  /\ (forall received self, Forall document (snd (handle_client received self)))
  /\ (forall data_json self data lp lv xs vs,
        reachable self ->
        json_loads lib data_json = Ok data ->
        getitem data "prices" = Ok (JArr lp) -> numbers lp = Some xs ->
        getitem data "volumes" = Ok (JArr lv) -> numbers lv = Some vs ->
        exists self' e,
          process_mt5_data data_json self = (self', JObj [("error", JStr (str e))])
          /\ str e <> "")
  /\ (forall data_json self data e,
        json_loads lib data_json = Ok data ->
        getitem data "prices" = Raise e
        \/ ((exists prices, rbind (getitem data "prices") np_array = Ok prices)
            /\ getitem data "volumes" = Raise e) ->
        process_mt5_data data_json self = (self, JObj [("error", JStr (str e))])
        /\ str e <> "").
Proof.
  split; [| split; [| split; [| split; [| split; [| split; [| split; [| split]]]]]]].
  - intros data_json self.
    destruct (process_mt5_data_cases data_json self) as [(self' & b & S & E) | (self' & e & S & E)].
    + left. exists self', b. repeat split; assumption || reflexivity.
    + right. exists self', e. split; assumption.
  - intros b e. unfold bundle_response, error_response. discriminate.
  - intros T data_json self self' e S. split.
    + apply process_mt5_data_raised, S.
    + apply (informs_signals T data_json self self' e S).
  - intros data_json self msg lineno colno pos L. split.
    + apply process_mt5_data_raised, signals_malformed, L.
    + apply decode_error_message.
  - intros data rest self text N D. apply handle_client_turn; assumption.
  - intros received self F. apply handle_client_answers_all, F.
  - intros received self. apply handle_client_documents.
  - intros data_json self data lp lv xs vs Re L P NP V NV.
    destruct (signals_one_dimensional_message data_json self data lp lv xs vs
                (reachable_cold self Re) L P NP V NV) as (self' & e & S & N).
    exists self', e. split; [apply process_mt5_data_raised, S | exact N].
  - intros data_json self data e L G. split.
    + apply process_mt5_data_raised, (signals_missing_field data_json self data e L G).
    + destruct G as [P | [_ V]]; eapply getitem_message; eassumption.
Qed.

(** * Further properties *)

(** ** The stopping-time estimator *)

Lemma sum_nonneg (l : list R) : Forall (fun x => 0 <= x) l -> 0 <= sum l.
Proof. induction 1 as [| x l H _ IH]; simpl; lra. Qed.

Lemma INR_length_pos {A : Type} (l : list A) : l <> [] -> 0 < INR (List.length l).
Proof.
  intros N. destruct l as [| x l]; [contradiction |].
  apply lt_0_INR. simpl. lia.
Qed.

Lemma mean_nonneg (l : list R) : Forall (fun x => 0 <= x) l -> 0 <= mean l.
Proof.
  intros F. unfold mean. destruct l as [| x l].
  - simpl. unfold Rdiv. rewrite Rmult_0_l. lra.
  - unfold Rdiv. apply Rmult_le_pos; [apply sum_nonneg, F |].
    left. apply Rinv_0_lt_compat, INR_length_pos. discriminate.
Qed.

Lemma var_nonneg (l : list R) : 0 <= var l.
Proof.
  unfold var. apply mean_nonneg. apply Forall_forall. intros y I.
  apply in_map_iff in I. destruct I as (x & <- & _).
  generalize (x - mean l). intros d. nra.
Qed.

Lemma std_squared (l : list R) : std l ^ 2 = var l.
Proof. unfold std. simpl. rewrite Rmult_1_r. apply sqrt_sqrt, var_nonneg. Qed.

(** The condition of [calculate_optimal_stop]: with the risk aversion 2.0
    the factor [0.5 * risk_aversion] is one, and the squared standard
    deviation is the variance. *)
Lemma stop_condition_simplified (returns : list R) :
  mean returns - 0.5 * 2.0 * std returns ^ 2 = mean returns - var returns.
Proof. rewrite std_squared. lra. Qed.

Lemma calculate_optimal_stop_vec (prices : list R) (self : QuantBackend) :
  (2 <= List.length prices)%nat ->
  calculate_optimal_stop (VVec prices) self
  = (self, Ok (Rltb (mean (diff (map ln prices)) - var (diff (map ln prices))) 0)).
Proof.
  intros L. unfold calculate_optimal_stop, bind, lift, ret, len.
  destruct (Nat.ltb_spec (List.length prices) 2) as [G | _]; [lia |].
  unfold np_log, series, rbind, np_diff, series, np_std, np_mean, series.
  rewrite stop_condition_simplified. reflexivity.
Qed.

(** X1.  On a series of at least two positive prices the stopping-time
    estimator returns, leaves the engine as it is, and says stop exactly
    when the mean of the log-returns is below their variance. *)
Theorem calculate_optimal_stop_mean_below_variance
    (prices : list R) (self : QuantBackend) :
  (2 <= List.length prices)%nat ->
  Forall (fun x => 0 < x) prices ->
  exists stop,
    calculate_optimal_stop (VVec prices) self = (self, Ok stop)
    /\ (stop = true <->
        mean (diff (map ln prices)) < var (diff (map ln prices))).
Proof.
  intros L _. eexists. split; [apply (calculate_optimal_stop_vec prices self L) |].
  rewrite Rltb_true_iff. split; intros H; lra.
Qed.

Lemma diff_ln_falling (l : list R) :
  Forall (fun x => 0 < x) l -> falling l -> Forall (fun d => d < 0) (diff (map ln l)).
Proof.
  induction l as [| x [| y rest] IH]; intros P F.
  - constructor.
  - constructor.
  - change (diff (map ln (x :: y :: rest)))
      with ((ln y - ln x) :: diff (map ln (y :: rest))).
    destruct F as [Lt F]. inversion P as [| ? ? _ P']; subst.
    constructor.
    + inversion P' as [| ? ? Py _]; subst.
      pose proof (ln_increasing y x Py Lt). lra.
    + apply IH; assumption.
Qed.

Lemma sum_negative (l : list R) : l <> [] -> Forall (fun d => d < 0) l -> sum l < 0.
Proof.
  intros N F. induction F as [| x l H F IH]; [contradiction |].
  simpl. destruct l as [| y l'].
  - simpl. lra.
  - assert (sum (y :: l') < 0) by (apply IH; discriminate). lra.
Qed.

Lemma diff_not_empty (l : list R) : (2 <= List.length l)%nat -> diff l <> [].
Proof.
  intros L E. pose proof (diff_length l) as D. rewrite E in D. simpl in D. lia.
Qed.

(** X2.  On a series of at least two positive prices whose log-returns,
    the differences of the logarithms the estimator computes, are all
    negative, the stopping-time estimator says stop, whatever their
    volatility.  (The log-returns of a series in which each price is below
    the one before are negative in exact arithmetic, lemma [diff_ln_falling];
    in float64 the logarithms of two adjacent prices can coincide, the
    return is then 0.0 and the hypothesis fails.) *)
Theorem calculate_optimal_stop_negative_returns (prices : list R) (self : QuantBackend) :
  (2 <= List.length prices)%nat ->
  Forall (fun x => 0 < x) prices ->
  Forall (fun d => d < 0) (diff (map ln prices)) ->
  calculate_optimal_stop (VVec prices) self = (self, Ok true).
Proof.
  intros L _ F. rewrite (calculate_optimal_stop_vec prices self L).
  do 2 f_equal. apply Rltb_true_iff.
  pose proof (var_nonneg (diff (map ln prices))) as V.
  assert (diff (map ln prices) <> []) as N
    by (apply diff_not_empty; rewrite length_map; exact L).
  assert (mean (diff (map ln prices)) < 0) as M.
  { unfold mean, Rdiv.
    pose proof (sum_negative _ N F) as S.
    pose proof (Rinv_0_lt_compat _ (INR_length_pos _ N)) as I.
    nra. }
  lra.
Qed.

Lemma diff_constant (c : R) (l : list R) :
  Forall (fun x => x = c) l -> Forall (fun d => d = 0) (diff (map ln l)).
Proof.
  induction l as [| x [| y rest] IH]; intros F.
  - constructor.
  - constructor.
  - change (diff (map ln (x :: y :: rest)))
      with ((ln y - ln x) :: diff (map ln (y :: rest))).
    inversion F as [| ? ? Ex F']; subst. constructor.
    + inversion F' as [| ? ? Ey _]; subst. lra.
    + apply IH, F'.
Qed.

Lemma sum_zero (l : list R) : Forall (fun d => d = 0) l -> sum l = 0.
Proof. induction 1 as [| x l H _ IH]; simpl; lra. Qed.

Lemma mean_zero (l : list R) : Forall (fun d => d = 0) l -> mean l = 0.
Proof. intros F. unfold mean, Rdiv. rewrite (sum_zero l F). apply Rmult_0_l. Qed.

Lemma var_zero (l : list R) : Forall (fun d => d = 0) l -> var l = 0.
Proof.
  intros F. unfold var. apply mean_zero. rewrite (mean_zero l F).
  apply Forall_forall. intros y I. apply in_map_iff in I. destruct I as (x & <- & I).
  rewrite Forall_forall in F. rewrite (F x I). lra.
Qed.

(** X3.  On a series of at least two equal positive prices the
    stopping-time estimator does not say stop: the condition is zero, and
    the comparison with zero is strict. *)
Theorem calculate_optimal_stop_constant (c : R) (prices : list R) (self : QuantBackend) :
  (2 <= List.length prices)%nat ->
  0 < c ->
  Forall (fun x => x = c) prices ->
  calculate_optimal_stop (VVec prices) self = (self, Ok false).
Proof.
  intros L _ F. rewrite (calculate_optimal_stop_vec prices self L).
  pose proof (diff_constant c prices F) as Z.
  rewrite (mean_zero _ Z), (var_zero _ Z).
  unfold Rltb. destruct (Rlt_dec (0 - 0) 0); [lra | reflexivity].
Qed.


(** ** The hedge estimator on series *)

(** What the estimator does on two one-dimensional arrays. *)
Lemma calculate_hedge_ratio_vec (a b : list R) (self : QuantBackend) :
  (2 <= List.length a)%nat ->
  (2 <= List.length b)%nat ->
  calculate_hedge_ratio (VVec a) (VVec b) self
  = if (List.length a =? List.length b)%nat
    then (set_correlation_matrix self
            (Some match correlation_matrix self with
                  | None => seed (corrcoef a b)
                  | Some m => madd (mscale 0.95 m) (mscale 0.05 (seed (corrcoef a b)))
                  end),
          Ok (HDict (corrcoef a b) (cov a b / var b)
                (cov a b / var b * (std a / std b))))
    else (self, Raise mismatch).
Proof.
  intros La Lb. unfold calculate_hedge_ratio, bind, lift, ret, len.
  destruct (Nat.ltb_spec (List.length a) 2) as [G | _]; [lia |].
  destruct (Nat.ltb_spec (List.length b) 2) as [G | _]; [lia |].
  unfold np_corrcoef, np_cov, np_var, np_std, series.
  destruct (List.length a =? List.length b)%nat; [| reflexivity].
  destruct (correlation_matrix self); reflexivity.
Qed.

(** X4.  On two one-dimensional arrays the hedge estimator changes the
    engine only when it returns the dictionary; and on arrays of at least two
    observations each and of different lengths it raises the [ValueError] of
    numpy's stacking, the correlation matrix untouched. *)
Theorem calculate_hedge_ratio_raises_on_unequal_lengths :
  (forall a b self,
      fst (calculate_hedge_ratio (VVec a) (VVec b) self) = self
      \/ exists r beta h,
           snd (calculate_hedge_ratio (VVec a) (VVec b) self) = Ok (HDict r beta h))
  /\ (forall a b self,
        (2 <= List.length a)%nat -> (2 <= List.length b)%nat ->
        List.length a <> List.length b ->
        calculate_hedge_ratio (VVec a) (VVec b) self = (self, Raise mismatch)).
Proof.
  split.
  - intros a b self.
    destruct (Nat.lt_ge_cases (List.length a) 2) as [La | La].
    { left. rewrite calculate_hedge_ratio_guard by (left; exact La). reflexivity. }
    destruct (Nat.lt_ge_cases (List.length b) 2) as [Lb | Lb].
    { left. rewrite calculate_hedge_ratio_guard by (right; exact Lb). reflexivity. }
    rewrite (calculate_hedge_ratio_vec a b self La Lb).
    destruct (List.length a =? List.length b)%nat.
    + right. eexists _, _, _. reflexivity.
    + left. reflexivity.
  - intros a b self La Lb N. rewrite (calculate_hedge_ratio_vec a b self La Lb).
    destruct (Nat.eqb_spec (List.length a) (List.length b)) as [E | _]; [contradiction |].
    reflexivity.
Qed.

Lemma dot_map_self (f : R -> R) (l : list R) :
  dot (map f l) (map f l) = sum (map (fun x => f x * f x) l).
Proof. induction l as [| x l IH]; simpl; [reflexivity | rewrite IH; reflexivity]. Qed.

(** The covariance of a series with itself divides by [n - 1], its variance
    by [n]. *)
Lemma cov_self (a : list R) :
  (2 <= List.length a)%nat ->
  cov a a = var a * (INR (List.length a) / (INR (List.length a) - 1)).
Proof.
  intros L.
  assert (2 <= INR (List.length a)) as N by (apply (le_INR 2), L).
  unfold cov, center. rewrite dot_map_self. cbv zeta.
  destruct (Rle_dec (INR (List.length a) - 1) 0) as [G | _]; [lra |].
  unfold var.
  change (mean (map (fun x => (x - mean a) * (x - mean a)) a))
    with (sum (map (fun x => (x - mean a) * (x - mean a)) a)
          / INR (List.length (map (fun x => (x - mean a) * (x - mean a)) a))).
  rewrite length_map.
  generalize (sum (map (fun x => (x - mean a) * (x - mean a)) a)). intros q.
  field. lra.
Qed.

Lemma clip_one : clip 1 (-1) 1 = 1.
Proof. unfold clip. rewrite Rmax_left by lra. rewrite Rmin_left by lra. reflexivity. Qed.

Lemma corrcoef_self (a : list R) : 0 < cov a a -> corrcoef a a = 1.
Proof.
  intros P. unfold corrcoef.
  assert (0 < sqrt (cov a a)) as Q by (apply sqrt_lt_R0, P).
  assert (sqrt (cov a a) * sqrt (cov a a) = cov a a) as S by (apply sqrt_sqrt; lra).
  replace (cov a a / sqrt (cov a a) / sqrt (cov a a)) with 1; [apply clip_one |].
  rewrite <- S at 1. field. lra.
Qed.

(** X5.  In exact arithmetic, a series of [n >= 2] observations that is not
    constant, hedged against itself: the correlation is 1, and beta and the
    hedge ratio are [n / (n - 1)], not 1, [np.cov] dividing by [n - 1] and
    [np.var] by [n].  The values are those of the real numbers; float64
    gives them up to rounding (a correlation one unit in the last place
    below 1, for instance). *)
Theorem calculate_hedge_ratio_self (a : list R) (self : QuantBackend) :
  (2 <= List.length a)%nat ->
  0 < var a ->
  snd (calculate_hedge_ratio (VVec a) (VVec a) self)
  = Ok (HDict 1 (INR (List.length a) / (INR (List.length a) - 1))
          (INR (List.length a) / (INR (List.length a) - 1))).
Proof.
  intros L V. rewrite (calculate_hedge_ratio_vec a a self L L).
  rewrite Nat.eqb_refl. simpl snd.
  assert (2 <= INR (List.length a)) as N by (apply (le_INR 2), L).
  assert (0 < cov a a) as C.
  { rewrite (cov_self a L). apply Rmult_lt_0_compat; [exact V |].
    apply Rdiv_lt_0_compat; lra. }
  assert (0 < std a) as S by (apply sqrt_lt_R0, V).
  rewrite (corrcoef_self a C), (cov_self a L).
  f_equal. f_equal; field; lra.
Qed.


(** ** The state estimator on scalar observations *)



(** X8.  When [calculate_zscore] raises on a scalar observation: exactly
    when an estimator is present whose predicted variance of the level plus
    the measurement noise is zero; the exception is numpy's [LinAlgError] of
    the inversion in [update], and the estimator stored afterwards is the
    predicted one, [predict] having run before [update] raised. *)
Theorem calculate_zscore_raises_after_predict :
  (forall z self kf,
      kalman_filter self = Some kf ->
      innovation_variance (predict kf) = 0 ->
      calculate_zscore (VNum z) self
      = (set_kalman_filter self (Some (predict kf)),
         Raise (LinAlgError "Singular matrix")))
  /\ (forall z self self' e,
        calculate_zscore (VNum z) self = (self', Raise e) ->
        exists kf,
          kalman_filter self = Some kf
          /\ innovation_variance (predict kf) = 0
          /\ self' = set_kalman_filter self (Some (predict kf))
          /\ e = LinAlgError "Singular matrix").
Proof.
  split.
  - intros z self kf E S. unfold calculate_zscore, kalman_update.
    rewrite E, (update_raises _ z S). reflexivity.
  - intros z self self' e. unfold calculate_zscore, kalman_update.
    destruct (kalman_filter self) as [kf |]; [| discriminate].
    intros E. exists kf. split; [reflexivity |].
    unfold update in E.
    destruct (Reqb (innovation_variance (predict kf)) 0) eqn:Z.
    + injection E as <- <-. repeat split.
      unfold Reqb in Z. destruct (Req_dec_T (innovation_variance (predict kf)) 0);
        [assumption | discriminate].
    + unfold standardize in E.
      match type of E with context [if ?c then _ else _] => destruct c end;
        discriminate.
Qed.


(** ** The regime classifier past its guard *)

Lemma tail_snoc {A : Type} (n : nat) (l : list A) (x : A) :
  (n <= List.length l)%nat -> tail (S n) (l ++ [x]) = tail n l ++ [x].
Proof.
  intros L. unfold tail. rewrite length_app. simpl.
  replace (List.length l + 1 - S n)%nat with (List.length l - n)%nat by lia.
  rewrite skipn_app.
  replace (List.length l - n - List.length l)%nat with 0%nat by lia.
  reflexivity.
Qed.

Lemma nodup_all_equal (l : list Z) (x : Z) :
  In x l ->
  (List.length (nodup Z.eq_dec l) = 1%nat <-> Forall (fun y => y = x) l).
Proof.
  intros I. split.
  - intros L. destruct (nodup Z.eq_dec l) as [| y [| y' rest]] eqn:N; try discriminate L.
    assert (forall z, In z l -> z = y) as All.
    { intros z Iz. apply (nodup_In Z.eq_dec) in Iz. rewrite N in Iz.
      destruct Iz as [<- | []]. reflexivity. }
    apply Forall_forall. intros z Iz. rewrite (All z Iz), (All x I). reflexivity.
  - intros F. rewrite Forall_forall in F.
    pose proof (NoDup_nodup Z.eq_dec l) as D.
    assert (forall z, In z (nodup Z.eq_dec l) -> z = x) as All
      by (intros z Iz; apply F, (nodup_In Z.eq_dec), Iz).
    apply (nodup_In Z.eq_dec) in I.
    destruct (nodup Z.eq_dec l) as [| a [| b rest]].
    + destruct I.
    + reflexivity.
    + exfalso. inversion D as [| ? ? NI _]. apply NI.
      rewrite (All a), (All b) by (simpl; auto). left. reflexivity.
Qed.

(** What the classifier does on a history of at least 100 labels, with the
    model [m] it uses and the labels that model predicts. *)
Lemma detect_regime_labels
    (price_data : value) (self : QuantBackend) (m : GaussianHMM)
    (returns : list R) (labels : list Z) :
  (100 <= List.length (regime_history self))%nat ->
  rbind (rbind (np_log price_data) np_diff) reshape_column = Ok returns ->
  hmm_model self = Some m \/ (hmm_model self = None /\ hmm_fit lib returns = (m, None)) ->
  hmm_predict lib m returns = Ok labels ->
  labels <> [] ->
  detect_regime price_data self
  = (set_regime_history (set_hmm_model self (Some m))
       (regime_history self ++ [last labels 0%Z]),
     Ok (List.length
           (nodup Z.eq_dec (tail 9 (regime_history self) ++ [last labels 0%Z])) =? 1)%nat).
Proof.
  intros L Rt Hm P N. unfold detect_regime.
  destruct (Nat.ltb_spec (List.length (regime_history self)) 100) as [G | _]; [lia |].
  rewrite Rt.
  assert (match hmm_model self with
          | Some m0 => (m0, None)
          | None => hmm_fit lib returns
          end = (m, None)) as Em.
  { destruct Hm as [-> | [-> F]]; [reflexivity | exact F]. }
  rewrite Em, P. unfold rbind, last_label.
  destruct labels as [| l0 labels']; [contradiction N; reflexivity |].
  assert (regime_history (set_hmm_model self (Some m)) = regime_history self) as Eh
    by (destruct self; reflexivity).
  assert (regime_history
            (set_regime_history (set_hmm_model self (Some m))
               (regime_history (set_hmm_model self (Some m)) ++ [last (l0 :: labels') 0%Z]))
          = regime_history self ++ [last (l0 :: labels') 0%Z]) as Eh'
    by (destruct self; reflexivity).
  rewrite Eh'. rewrite Eh. rewrite length_app. simpl List.length.
  destruct (Nat.leb_spec 10 (List.length (regime_history self) + 1)) as [_ | G]; [| lia].
  rewrite (tail_snoc 9) by lia. reflexivity.
Qed.

(** X9.  Past the guard of [detect_regime], that is on a history of at
    least 100 labels, with a model that is stored already or is fitted now
    without error, and with labels predicted for the returns: the last label
    is appended to the history and nothing else of the history changes, a
    stored model is kept as it is, and the result is true exactly when the
    nine most recent labels of the history all equal the new one. *)
Theorem detect_regime_compares_recent_labels
    (price_data : value) (self : QuantBackend) (m : GaussianHMM)
    (returns : list R) (labels : list Z) :
  (100 <= List.length (regime_history self))%nat ->
  rbind (rbind (np_log price_data) np_diff) reshape_column = Ok returns ->
  hmm_model self = Some m \/ (hmm_model self = None /\ hmm_fit lib returns = (m, None)) ->
  hmm_predict lib m returns = Ok labels ->
  labels <> [] ->
  exists self' regime,
    detect_regime price_data self = (self', Ok regime)
    /\ regime_history self' = regime_history self ++ [last labels 0%Z]
    /\ hmm_model self' = Some m
    /\ (regime = true
        <-> Forall (fun label => label = last labels 0%Z) (tail 9 (regime_history self))).
Proof.
  intros L Rt Hm P N.
  rewrite (detect_regime_labels price_data self m returns labels L Rt Hm P N).
  eexists _, _. split; [reflexivity |].
  split; [destruct self; reflexivity |]. split; [destruct self; reflexivity |].
  rewrite Nat.eqb_eq.
  rewrite (nodup_all_equal _ (last labels 0%Z)) by (apply in_or_app; right; left; reflexivity).
  rewrite Forall_app. split.
  - intros [F _]. exact F.
  - intros F. split; [exact F |]. constructor; [reflexivity | constructor].
Qed.


(** ** Invariants of the engine *)

Lemma keeps_lift {A : Type} (I : QuantBackend -> Prop) (r : result A) :
  keeps I (lift r) (fun a => r = Ok a).
Proof. intros self H. split; [exact H | intros a E; exact E]. Qed.

Lemma keeps_ret {A : Type} (I : QuantBackend -> Prop) (a : A) :
  keeps I (ret a) (fun a' => a' = a).
Proof. intros self H. split; [exact H | intros a' E; simpl in E; congruence]. Qed.

Lemma keeps_weaken {A : Type} (I : QuantBackend -> Prop) (c : M A) (Q Q' : A -> Prop) :
  keeps I c Q -> (forall a, Q a -> Q' a) -> keeps I c Q'.
Proof.
  intros K W self H. destruct (K self H) as [H' R]. split; [exact H' |].
  intros a E. apply W, R, E.
Qed.

Lemma keeps_bind {A B : Type} (I : QuantBackend -> Prop) (c : M A) (k : A -> M B)
    (Q1 : A -> Prop) (Q2 : B -> Prop) :
  keeps I c Q1 -> (forall a, Q1 a -> keeps I (k a) Q2) -> keeps I (bind c k) Q2.
Proof.
  intros K1 K2 self H. destruct (K1 self H) as [H1 R1]. unfold bind.
  destruct (c self) as [self1 [a | e]]; simpl in *.
  - apply (K2 a (R1 a eq_refl) self1 H1).
  - split; [exact H1 | intros b E; discriminate E].
Qed.

Lemma keeps_any {A : Type} (I : QuantBackend -> Prop) (c : M A) (Q : A -> Prop) :
  keeps I c Q -> keeps I c (fun _ => True).
Proof. intros K. apply (keeps_weaken I c Q); [exact K | trivial]. Qed.

Lemma keeps_calculate_optimal_stop (I : QuantBackend -> Prop) (position_data : value) :
  keeps I (calculate_optimal_stop position_data) (fun _ => True).
Proof.
  unfold calculate_optimal_stop.
  eapply keeps_bind; [apply keeps_lift |]. intros n _.
  destruct (n <? 2)%nat; [eapply keeps_any, keeps_ret |].
  eapply keeps_bind; [apply keeps_lift |]. intros returns _.
  eapply keeps_bind; [apply keeps_lift |]. intros volatility _.
  eapply keeps_bind; [apply keeps_lift |]. intros expected_return _.
  eapply keeps_any, keeps_ret.
Qed.

(** The hedge estimator keeps every invariant that does not look at the
    correlation matrix. *)
Lemma keeps_calculate_hedge_ratio (I : QuantBackend -> Prop) (pair1 pair2 : value) :
  (forall self m, I self -> I (set_correlation_matrix self m)) ->
  keeps I (calculate_hedge_ratio pair1 pair2) (fun _ => True).
Proof.
  intros Frame. unfold calculate_hedge_ratio.
  eapply keeps_bind; [apply keeps_lift |]. intros n1 _.
  destruct (n1 <? 2)%nat; [eapply keeps_any, keeps_ret |].
  eapply keeps_bind; [apply keeps_lift |]. intros n2 _.
  destruct (n2 <? 2)%nat; [eapply keeps_any, keeps_ret |].
  eapply keeps_bind; [apply keeps_lift |]. intros r _.
  eapply keeps_bind; [apply keeps_lift |]. intros c _.
  eapply keeps_bind; [apply keeps_lift |]. intros v _.
  eapply keeps_bind with (Q1 := fun _ => True).
  - intros self H. split; [| trivial].
    destruct (correlation_matrix self); apply Frame, H.
  - intros _ _.
    eapply keeps_bind; [apply keeps_lift |]. intros d1 _.
    eapply keeps_bind; [apply keeps_lift |]. intros d2 _.
    eapply keeps_any, keeps_ret.
Qed.

(** The fields of a bundle the dictionary literal has built. *)
Lemma assemble_returns zscore regime ml_prob hedge_data stop_signal b :
  assemble zscore regime ml_prob hedge_data stop_signal = Ok b ->
  py_float zscore = Ok (zScore b)
  /\ isDirectionalRegime b = regime
  /\ mlProbability b = ml_prob
  /\ kalmanSignal b = Rgtb (Rabs (zScore b)) 2.0.
Proof.
  unfold assemble, rbind. intros E.
  destruct (py_float zscore); [| discriminate E].
  destruct (hedge_correlation hedge_data); [| discriminate E].
  injection E as <-. repeat split.
Qed.

(** The body of the [try] statement keeps an invariant that the four
    methods changing or reading the engine keep, and a bundle it returns is
    assembled from what those methods return. *)
Lemma keeps_signals (I : QuantBackend -> Prop)
    (Qz : value -> Prop) (Qr : bool -> Prop) (Qm : R -> Prop) (data_json : string) :
  (forall spread, keeps I (calculate_zscore spread) Qz) ->
  (forall price_data, keeps I (detect_regime price_data) Qr) ->
  (forall features, keeps I (calculate_ml_probability features) Qm) ->
  (forall pair1 pair2, keeps I (calculate_hedge_ratio pair1 pair2) (fun _ => True)) ->
  keeps I (signals data_json)
    (fun b => exists zscore,
         Qz zscore /\ py_float zscore = Ok (zScore b)
         /\ Qr (isDirectionalRegime b) /\ Qm (mlProbability b)
         /\ kalmanSignal b = Rgtb (Rabs (zScore b)) 2.0).
Proof.
  intros Kz Kr Km Kh. unfold signals.
  eapply keeps_bind; [apply keeps_lift |]. intros data _.
  eapply keeps_bind; [apply keeps_lift |]. intros prices _.
  eapply keeps_bind; [apply keeps_lift |]. intros volumes _.
  eapply keeps_bind; [apply keeps_lift |]. intros spread _.
  eapply keeps_bind; [apply Kz |]. intros zscore Hz.
  eapply keeps_bind; [apply Kr |]. intros regime Hr.
  eapply keeps_bind; [apply keeps_lift |]. intros window _.
  eapply keeps_bind; [apply keeps_lift |]. intros volume_window _.
  eapply keeps_bind; [apply keeps_lift |]. intros differences _.
  eapply keeps_bind; [apply keeps_lift |]. intros features _.
  eapply keeps_bind; [apply Km |]. intros ml_prob Hm.
  eapply keeps_bind; [apply keeps_lift |]. intros pair1 _.
  eapply keeps_bind; [apply keeps_lift |]. intros pair2 _.
  eapply keeps_bind; [apply Kh |]. intros hedge_data _.
  eapply keeps_bind; [apply keeps_calculate_optimal_stop |]. intros stop_signal _.
  eapply keeps_weaken; [apply keeps_lift |].
  intros b E. destruct (assemble_returns _ _ _ _ _ _ E) as (F & -> & -> & K).
  exists zscore. repeat split; assumption.
Qed.

Lemma keeps_process_mt5_data (I : QuantBackend -> Prop) (Q : bundle -> Prop)
    (data_json : string) (self : QuantBackend) :
  keeps I (signals data_json) Q -> I self -> I (fst (process_mt5_data data_json self)).
Proof.
  intros K H. destruct (K self H) as [H' _]. unfold process_mt5_data.
  destruct (signals data_json self) as [self' [b | e]]; exact H'.
Qed.

(** An invariant that holds of [QuantBackend()] and that no assignment to
    an attribute breaks, the correlation matrix being assigned by the hedge
    estimator alone, holds in every state the methods reach. *)
Lemma reachable_invariant (I : QuantBackend -> Prop) :
  I init ->
  (forall self k, I self -> I (set_kalman_filter self k)) ->
  (forall self m, I self -> I (set_hmm_model self m)) ->
  (forall self p, I self -> I (set_pca self p)) ->
  (forall self h, I self -> I (set_regime_history self h)) ->
  (forall pair1 pair2, keeps I (calculate_hedge_ratio pair1 pair2) (fun _ => True)) ->
  (forall features, keeps I (calculate_ml_probability features) (fun p => True)) ->
  forall self, reachable self -> I self.
Proof.
  intros Hi Fk Fm Fp Fh Kh Km.
  assert (forall spread, keeps I (calculate_zscore spread) (fun _ => True)) as Kz.
  { intros spread self H. split; [| trivial]. unfold calculate_zscore.
    destruct (kalman_filter self) as [kf |]; [| exact H].
    destruct (kalman_update (predict kf) spread); apply Fk, H. }
  assert (forall price_data, keeps I (detect_regime price_data) (fun _ => True)) as Kr.
  { intros price_data self H. split; [| trivial]. unfold detect_regime.
    destruct (List.length (regime_history self) <? 100)%nat; [exact H |].
    destruct (rbind (rbind (np_log price_data) np_diff) reshape_column) as [returns | e];
      [| exact H].
    destruct (match hmm_model self with
              | Some m => (m, None)
              | None => hmm_fit lib returns
              end) as [model [e |]]; [apply Fm, H |].
    destruct (rbind (hmm_predict lib model returns) last_label) as [label | e];
      [| apply Fm, H].
    match goal with |- context [if ?c then _ else _] => destruct c end;
      apply Fh, Fm, H. }
  intros self Re. induction Re as [| self c _ IH]; [exact Hi |].
  destruct c; simpl.
  - apply Fk, IH.
  - apply (Kz spread self IH).
  - exact IH.
  - apply (Kr price_data self IH).
  - unfold calculate_pca_signals. destruct (pca_fit lib price_matrix); [apply Fp, IH | exact IH].
  - apply (Km features self IH).
  - apply (Kh pair1 pair2 self IH).
  - apply (keeps_calculate_optimal_stop I position_data self IH).
  - eapply keeps_process_mt5_data; [| exact IH].
    apply (keeps_signals I (fun _ => True) (fun _ => True) (fun _ => True));
      assumption.
Qed.

(** *** The random forest is never fitted *)

Lemma keeps_unfitted_calculate_ml_probability (features : value) :
  keeps (fun self => rf_classifier self = None)
    (calculate_ml_probability features) (fun p => p = 0.5).
Proof.
  intros self H. unfold calculate_ml_probability. rewrite H. simpl.
  split; [exact H | intros a E; congruence].
Qed.

Lemma reachable_unfitted (self : QuantBackend) : reachable self -> rf_classifier self = None.
Proof.
  apply (reachable_invariant (fun self => rf_classifier self = None)).
  - reflexivity.
  - intros [] k H. exact H.
  - intros [] m H. exact H.
  - intros [] p H. exact H.
  - intros [] h H. exact H.
  - intros pair1 pair2. apply keeps_calculate_hedge_ratio. intros [] m H. exact H.
  - intros features. eapply keeps_any, keeps_unfitted_calculate_ml_probability.
Qed.

(** X10.  No method fits the random forest [__init__] creates: in every
    state reached from [QuantBackend()] by calls of its methods the forest
    has no [classes_], [calculate_ml_probability] returns exactly 0.5
    whatever the features and leaves the engine as it is, and every bundle
    of [process_mt5_data] carries the probability 0.5. *)
Theorem calculate_ml_probability_is_one_half (self : QuantBackend) :
  reachable self ->
  rf_classifier self = None
  /\ (forall features, calculate_ml_probability features self = (self, Ok 0.5))
  /\ (forall data_json self' b,
        signals data_json self = (self', Ok b) -> mlProbability b = 0.5).
Proof.
  intros Re. pose proof (reachable_unfitted self Re) as H.
  split; [exact H |]. split.
  - intros features. unfold calculate_ml_probability. rewrite H. reflexivity.
  - intros data_json self' b E.
    assert (keeps (fun self => rf_classifier self = None) (signals data_json)
              (fun b => exists zscore : value,
                   True /\ py_float zscore = Ok (zScore b)
                   /\ True /\ mlProbability b = 0.5
                   /\ kalmanSignal b = Rgtb (Rabs (zScore b)) 2.0)) as K.
    { apply (keeps_signals (fun self => rf_classifier self = None)
               (fun _ => True) (fun _ => True) (fun p => p = 0.5)).
      - intros spread s Hs. split; [| trivial]. unfold calculate_zscore.
        destruct (kalman_filter s) as [kf |]; [| exact Hs].
        destruct (kalman_update (predict kf) spread); destruct s; exact Hs.
      - intros price_data s Hs. split; [| trivial]. unfold detect_regime.
        destruct (List.length (regime_history s) <? 100)%nat; [exact Hs |].
        destruct (rbind (rbind (np_log price_data) np_diff) reshape_column) as [returns | e];
          [| exact Hs].
        destruct (match hmm_model s with
                  | Some m => (m, None)
                  | None => hmm_fit lib returns
                  end) as [model [e |]]; [destruct s; exact Hs |].
        destruct (rbind (hmm_predict lib model returns) last_label) as [label | e];
          [| destruct s; exact Hs].
        match goal with |- context [if ?c then _ else _] => destruct c end;
          destruct s; exact Hs.
      - apply keeps_unfitted_calculate_ml_probability.
      - intros pair1 pair2. apply keeps_calculate_hedge_ratio. intros [] m Hs. exact Hs. }
    destruct (K self H) as [_ Q]. rewrite E in Q.
    destruct (Q b eq_refl) as (_ & _ & _ & _ & P & _). exact P.
Qed.

(** *** The correlation matrix *)






(** ** The correlation matrix is written and never read *)

Lemma agree_set_kalman_filter s1 s2 k :
  agree s1 s2 -> agree (set_kalman_filter s1 k) (set_kalman_filter s2 k).
Proof. destruct s1, s2. unfold agree. simpl. intuition congruence. Qed.

Lemma agree_set_pca s1 s2 p : agree s1 s2 -> agree (set_pca s1 p) (set_pca s2 p).
Proof. destruct s1, s2. unfold agree. simpl. intuition congruence. Qed.

Lemma agree_set_correlation_matrix s1 s2 m1 m2 :
  agree s1 s2 -> agree (set_correlation_matrix s1 m1) (set_correlation_matrix s2 m2).
Proof. destruct s1, s2. unfold agree. simpl. intuition congruence. Qed.

Lemma blind_lift {A : Type} (r : result A) : blind (lift r).
Proof. intros s1 s2 H. split; [exact H | reflexivity]. Qed.

Lemma blind_ret {A : Type} (a : A) : blind (ret a).
Proof. intros s1 s2 H. split; [exact H | reflexivity]. Qed.

Lemma blind_bind {A B : Type} (c : M A) (k : A -> M B) :
  blind c -> (forall a, blind (k a)) -> blind (bind c k).
Proof.
  intros Hc Hk s1 s2 H. destruct (Hc s1 s2 H) as [H1 E]. unfold bind.
  destruct (c s1) as [s1' r1]. destruct (c s2) as [s2' r2]. simpl in *. subst r2.
  destruct r1 as [a | e]; [apply Hk, H1 | split; [exact H1 | reflexivity]].
Qed.

Lemma blind_initialize_kalman_filter x0 p0 : blind (initialize_kalman_filter x0 p0).
Proof.
  intros s1 s2 H. split; [| reflexivity]. apply agree_set_kalman_filter, H.
Qed.

Lemma blind_calculate_zscore spread : blind (calculate_zscore spread).
Proof.
  intros s1 s2 H. pose proof H as (K & _). unfold calculate_zscore. rewrite K.
  destruct (kalman_filter s2) as [kf |]; [| split; [exact H | reflexivity]].
  destruct (kalman_update (predict kf) spread); simpl;
    (split; [apply agree_set_kalman_filter, H | reflexivity]).
Qed.

Lemma blind_detect_regime price_data : blind (detect_regime price_data).
Proof.
  intros [k1 h1 p1 r1 g1 c1] [k2 h2 p2 r2 g2 c2] H.
  unfold agree in H. simpl in H. destruct H as (-> & -> & -> & -> & ->).
  unfold detect_regime. simpl.
  destruct (List.length g2 <? 100)%nat; [split; [repeat split | reflexivity] |].
  destruct (rbind (rbind (np_log price_data) np_diff) reshape_column) as [returns | e];
    [| split; [repeat split | reflexivity]].
  destruct (match h2 with
            | Some m => (m, None)
            | None => hmm_fit lib returns
            end) as [model [e |]]; [split; [repeat split | reflexivity] |].
  destruct (rbind (hmm_predict lib model returns) last_label) as [label | e];
    [| split; [repeat split | reflexivity]].
  match goal with |- context [if ?c then _ else _] => destruct c end;
    (split; [repeat split | reflexivity]).
Qed.

Lemma blind_calculate_pca_signals price_matrix : blind (calculate_pca_signals price_matrix).
Proof.
  intros s1 s2 H. unfold calculate_pca_signals.
  destruct (pca_fit lib price_matrix); [| split; [exact H | reflexivity]].
  split; [apply agree_set_pca, H | reflexivity].
Qed.

Lemma blind_calculate_ml_probability features : blind (calculate_ml_probability features).
Proof.
  intros s1 s2 H. pose proof H as (_ & _ & _ & Rf & _).
  unfold calculate_ml_probability. rewrite Rf.
  destruct (rf_classifier s2); (split; [exact H | reflexivity]).
Qed.

Lemma blind_calculate_hedge_ratio pair1 pair2 : blind (calculate_hedge_ratio pair1 pair2).
Proof.
  unfold calculate_hedge_ratio.
  apply blind_bind; [apply blind_lift |]. intros n1.
  destruct (n1 <? 2)%nat; [apply blind_ret |].
  apply blind_bind; [apply blind_lift |]. intros n2.
  destruct (n2 <? 2)%nat; [apply blind_ret |].
  apply blind_bind; [apply blind_lift |]. intros r.
  apply blind_bind; [apply blind_lift |]. intros c.
  apply blind_bind; [apply blind_lift |]. intros v.
  apply blind_bind.
  - intros s1 s2 H.
    destruct (correlation_matrix s1), (correlation_matrix s2); simpl;
      (split; [apply agree_set_correlation_matrix, H | reflexivity]).
  - intros _.
    apply blind_bind; [apply blind_lift |]. intros d1.
    apply blind_bind; [apply blind_lift |]. intros d2.
    apply blind_ret.
Qed.

Lemma blind_calculate_optimal_stop position_data : blind (calculate_optimal_stop position_data).
Proof.
  unfold calculate_optimal_stop.
  apply blind_bind; [apply blind_lift |]. intros n.
  destruct (n <? 2)%nat; [apply blind_ret |].
  apply blind_bind; [apply blind_lift |]. intros returns.
  apply blind_bind; [apply blind_lift |]. intros volatility.
  apply blind_bind; [apply blind_lift |]. intros expected_return.
  apply blind_ret.
Qed.

Lemma blind_signals data_json : blind (signals data_json).
Proof.
  unfold signals.
  apply blind_bind; [apply blind_lift |]. intros data.
  apply blind_bind; [apply blind_lift |]. intros prices.
  apply blind_bind; [apply blind_lift |]. intros volumes.
  apply blind_bind; [apply blind_lift |]. intros spread.
  apply blind_bind; [apply blind_calculate_zscore |]. intros zscore.
  apply blind_bind; [apply blind_detect_regime |]. intros regime.
  apply blind_bind; [apply blind_lift |]. intros window.
  apply blind_bind; [apply blind_lift |]. intros volume_window.
  apply blind_bind; [apply blind_lift |]. intros differences.
  apply blind_bind; [apply blind_lift |]. intros features.
  apply blind_bind; [apply blind_calculate_ml_probability |]. intros ml_prob.
  apply blind_bind; [apply blind_lift |]. intros pair1.
  apply blind_bind; [apply blind_lift |]. intros pair2.
  apply blind_bind; [apply blind_calculate_hedge_ratio |]. intros hedge_data.
  apply blind_bind; [apply blind_calculate_optimal_stop |]. intros stop_signal.
  apply blind_lift.
Qed.

Lemma blind_process_mt5_data data_json s1 s2 :
  agree s1 s2 ->
  agree (fst (process_mt5_data data_json s1)) (fst (process_mt5_data data_json s2))
  /\ snd (process_mt5_data data_json s1) = snd (process_mt5_data data_json s2).
Proof.
  intros H. destruct (blind_signals data_json s1 s2 H) as [H' E].
  unfold process_mt5_data.
  destruct (signals data_json s1) as [s1' r1]. destruct (signals data_json s2) as [s2' r2].
  simpl in *. subst r2. destruct r1; split; trivial.
Qed.

(** X12.  The smoothed correlation matrix is stored by
    [calculate_hedge_ratio] and read by nothing but the next smoothing: two
    engines that differ in it alone still differ in it alone after any call,
    and the hedge estimator and [process_mt5_data] answer the same on both. *)
Theorem correlation_matrix_is_never_read (s1 s2 : QuantBackend) :
  agree s1 s2 ->
  (forall c, agree (step s1 c) (step s2 c))
  /\ (forall pair1 pair2,
        snd (calculate_hedge_ratio pair1 pair2 s1) = snd (calculate_hedge_ratio pair1 pair2 s2))
  /\ (forall data_json,
        snd (process_mt5_data data_json s1) = snd (process_mt5_data data_json s2)).
Proof.
  intros H. split; [| split].
  - intros c. destruct c; simpl.
    + apply (blind_initialize_kalman_filter initial_state initial_covariance s1 s2 H).
    + apply (blind_calculate_zscore spread s1 s2 H).
    + exact H.
    + apply (blind_detect_regime price_data s1 s2 H).
    + apply (blind_calculate_pca_signals price_matrix s1 s2 H).
    + apply (blind_calculate_ml_probability features s1 s2 H).
    + apply (blind_calculate_hedge_ratio pair1 pair2 s1 s2 H).
    + apply (blind_calculate_optimal_stop position_data s1 s2 H).
    + apply (blind_process_mt5_data data_json s1 s2 H).
  - intros pair1 pair2. apply (blind_calculate_hedge_ratio pair1 pair2 s1 s2 H).
  - intros data_json. apply (blind_process_mt5_data data_json s1 s2 H).
Qed.

(** ** The engine of the server *)

Lemma idle_set_correlation_matrix self m : idle self -> idle (set_correlation_matrix self m).
Proof. destruct self. unfold idle, cold. simpl. trivial. Qed.

Lemma keeps_idle_calculate_zscore spread :
  keeps idle (calculate_zscore spread) (fun zscore => zscore = VNum 0).
Proof.
  intros self H. pose proof H as (K & _).
  rewrite (calculate_zscore_none spread self K). simpl.
  split; [exact H | intros a E; congruence].
Qed.

Lemma keeps_idle_detect_regime price_data :
  keeps idle (detect_regime price_data) (fun regime => regime = false).
Proof.
  intros self H. pose proof H as (_ & _ & _ & Hh & _).
  rewrite detect_regime_guard by (rewrite Hh; simpl; lia). simpl.
  split; [exact H | intros a E; congruence].
Qed.

Lemma keeps_idle_calculate_ml_probability features :
  keeps idle (calculate_ml_probability features) (fun p => p = 0.5).
Proof.
  intros self H. pose proof H as (_ & Rf & _).
  unfold calculate_ml_probability. rewrite Rf. simpl.
  split; [exact H | intros a E; congruence].
Qed.

Lemma keeps_idle_signals data_json :
  keeps idle (signals data_json)
    (fun b => exists zscore : value,
         zscore = VNum 0 /\ py_float zscore = Ok (zScore b)
         /\ isDirectionalRegime b = false /\ mlProbability b = 0.5
         /\ kalmanSignal b = Rgtb (Rabs (zScore b)) 2.0).
Proof.
  apply (keeps_signals idle (fun zscore => zscore = VNum 0)
           (fun regime => regime = false) (fun p => p = 0.5)).
  - apply keeps_idle_calculate_zscore.
  - apply keeps_idle_detect_regime.
  - apply keeps_idle_calculate_ml_probability.
  - intros pair1 pair2. apply keeps_calculate_hedge_ratio.
    intros self m. apply idle_set_correlation_matrix.
Qed.

Lemma served_idle (self : QuantBackend) : served self -> idle self.
Proof.
  induction 1 as [| self data_json _ IH].
  - repeat split.
  - apply (keeps_process_mt5_data idle _ data_json self (keeps_idle_signals data_json) IH).
Qed.

Lemma Rgtb_zero : Rgtb (Rabs 0) 2.0 = false.
Proof.
  unfold Rgtb. destruct (Rlt_dec 2.0 (Rabs 0)) as [L | _]; [| reflexivity].
  rewrite Rabs_R0 in L. lra.
Qed.

(** X13.  The engine of an [MT5Server] is made by [QuantBackend()] and is
    only ever given to [process_mt5_data], which initializes no estimator:
    whatever requests it has served, it has no Kalman filter and no regime
    model, its forest and its PCA are not fitted and its regime history is
    empty, and in every bundle it answers with, [zScore] is 0, [kalmanSignal]
    and [isDirectionalRegime] are false and [mlProbability] is 0.5. *)
Theorem served_engine_answers_constants (self : QuantBackend) :
  served self ->
  idle self
  /\ (forall data_json self' b,
        signals data_json self = (self', Ok b) ->
        zScore b = 0 /\ kalmanSignal b = false
        /\ mlProbability b = 0.5 /\ isDirectionalRegime b = false).
Proof.
  intros S. pose proof (served_idle self S) as H. split; [exact H |].
  intros data_json self' b E.
  destruct (keeps_idle_signals data_json self H) as [_ Q]. rewrite E in Q.
  destruct (Q b eq_refl) as (zscore & -> & F & Rg & Ml & K).
  simpl in F. injection F as F. rewrite K, <- F. repeat split; try assumption.
  apply Rgtb_zero.
Qed.

Lemma idle_agree_init (self : QuantBackend) : idle self -> agree self init.
Proof.
  intros (K & Rf & P & Hh & Hm). unfold agree. simpl. repeat split; assumption.
Qed.

(** X14.  The responses of a server do not depend on what it has served
    before: after any requests, the engine of an [MT5Server] answers a
    request with the document a fresh [QuantBackend()] answers it with. *)
Theorem served_engine_answers_as_fresh (self : QuantBackend) (data_json : string) :
  served self ->
  snd (process_mt5_data data_json self) = snd (process_mt5_data data_json init).
Proof.
  intros S. apply blind_process_mt5_data, idle_agree_init, served_idle, S.
Qed.

(** X15.  On the engine of a server, whatever it has served, a request in
    the documented wire format, [prices] and [volumes] arrays of numbers
    with at least one price, is answered with the error document of
    [np.column_stack]'s length mismatch, and the engine is left as it was. *)
Theorem served_wire_request_is_mismatch
    (data_json : string) (self : QuantBackend) (data : json)
    (lp lv : list json) (xs vs : list R) :
  served self ->
  json_loads lib data_json = Ok data ->
  getitem data "prices" = Ok (JArr lp) -> numbers lp = Some xs ->
  getitem data "volumes" = Ok (JArr lv) -> numbers lv = Some vs ->
  xs <> [] ->
  process_mt5_data data_json self = (self, error_response mismatch).
Proof.
  intros S L P NP V NV N. pose proof (served_idle self S) as (K & _ & _ & Hh & _).
  apply process_mt5_data_raised.
  rewrite (signals_one_dimensional data_json self data lp lv xs vs L P NP V NV N).
  rewrite (calculate_zscore_none _ self K).
  rewrite (detect_regime_guard (VVec xs) self) by (rewrite Hh; simpl; lia).
  reflexivity.
Qed.

(** ** The session loop *)

Lemma handle_client_app (before after : list (list byte)) :
  Forall answerable before ->
  forall self,
    handle_client (before ++ after) self
    = (fst (handle_client after (fst (handle_client before self))),
       snd (handle_client before self)
       ++ snd (handle_client after (fst (handle_client before self)))).
Proof.
  induction 1 as [| data rest [N [text D]] _ IH]; intros self.
  - simpl. destruct (handle_client after self). reflexivity.
  - simpl. destruct data as [| c data']; [contradiction N; reflexivity |].
    rewrite D. destruct (process_mt5_data text self) as [self' response].
    rewrite (IH self'). destruct (handle_client rest self') as [self'' sent].
    reflexivity.
Qed.

Lemma handle_client_unanswerable (data : list byte) (rest : list (list byte)) self :
  ~ answerable data -> handle_client (data :: rest) self = (self, []).
Proof.
  intros N. simpl. destruct data as [| c data']; [reflexivity |].
  destruct (decode lib (c :: data')) as [text | e] eqn:D; [| reflexivity].
  contradiction N. split; [discriminate | exists text; exact D].
Qed.

(** X16.  A session ends at the first chunk that is empty (the peer has
    closed) or does not decode: every chunk before it has been answered, in
    order, and of the chunks after it none is processed, so they change
    neither the engine nor what is sent. *)
Theorem handle_client_stops_at_first_bad_chunk
    (before rest : list (list byte)) (data : list byte) (self : QuantBackend) :
  Forall answerable before ->
  ~ answerable data ->
  handle_client (before ++ data :: rest) self = handle_client before self
  /\ List.length (snd (handle_client before self)) = List.length before.
Proof.
  intros F N. split.
  - rewrite (handle_client_app before (data :: rest) F self).
    rewrite (handle_client_unanswerable data rest _ N). simpl.
    rewrite app_nil_r. destruct (handle_client before self). reflexivity.
  - apply handle_client_answers_all, F.
Qed.

(** ** The cointegration tests *)

(** X17.  Two one-dimensional series of different lengths never get a
    result from [detect_cointegration]: the subtraction raises, or, where
    numpy broadcasts a series of length one, the stacking of the two columns
    does after the ADF test has run; the engine is not touched. *)
Theorem detect_cointegration_unequal_lengths (a b : list R) (self : QuantBackend) :
  List.length a <> List.length b ->
  exists e, detect_cointegration (VVec a) (VVec b) self = (self, Raise e).
Proof.
  intros N. unfold detect_cointegration, lift. unfold column_stack2.
  destruct (Nat.eqb_spec (List.length a) (List.length b)) as [E | _]; [contradiction |].
  destruct (rbind (np_sub (VVec a) (VVec b)) (adfuller lib)) as [adf_pvalue | e];
    simpl; eexists; reflexivity.
Qed.


(** ** A request that fails after the estimator has moved *)

(** X18.  The [try] statement of [process_mt5_data] undoes nothing.  On an
    engine reached from [QuantBackend()] whose Kalman filter is configured,
    a request in the wire format with at least one price is answered with
    the error document of the length mismatch, and yet the filter stored
    afterwards is the one predicted and updated with the latest price. *)
Theorem process_mt5_data_error_advances_filter
    (data_json : string) (self : QuantBackend) (kf : KalmanFilter) (data : json)
    (lp lv : list json) (xs vs : list R) :
  reachable self ->
  kalman_filter self = Some kf ->
  configured kf ->
  json_loads lib data_json = Ok data ->
  getitem data "prices" = Ok (JArr lp) -> numbers lp = Some xs ->
  getitem data "volumes" = Ok (JArr lv) -> numbers lv = Some vs ->
  xs <> [] ->
  exists kf',
    update (predict kf) (last xs 0) = Ok kf'
    /\ process_mt5_data data_json self
       = (set_kalman_filter self (Some kf'), error_response mismatch).
Proof.
  intros Re E C L P NP V NV N.
  destruct (configured_step kf (last xs 0) C) as (kf' & U & _ & _).
  exists kf'. split; [exact U |].
  apply process_mt5_data_raised.
  rewrite (signals_one_dimensional data_json self data lp lv xs vs L P NP V NV N).
  rewrite (calculate_zscore_scalar (last xs 0) self kf kf' E U).
  destruct (reachable_cold self Re) as [Hh _].
  rewrite detect_regime_guard; [reflexivity |].
  destruct self. simpl in *. rewrite Hh. simpl. lia.
Qed.


End Engine.

(** C9.  With fewer than 100 labels in the history the classifier returns
    false at once, for every input: the engine, and with it the model and the
    history, is unchanged, and the hidden-Markov model is neither fitted nor
    asked, the result being the same whatever the library does. *)
Theorem detect_regime_cold_start
    {other GaussianHMM RandomForest PCA : Type}
    (lib lib' : library other GaussianHMM RandomForest PCA)
    (price_data : pyvalue other) (self : QuantBackend) :
  (List.length (regime_history self) < 100)%nat ->
  detect_regime lib price_data self = (self, Ok false)
  /\ detect_regime lib' price_data self = detect_regime lib price_data self.
Proof.
  intros L. rewrite !(detect_regime_guard _ price_data self L). split; reflexivity.
Qed.

(** * The sample inputs *)

Lemma sample_innovation_variance : innovation_variance (predict sample_filter) = 49 / 90.
Proof. evaluate_filter. lra. Qed.

Lemma sample_update : update (predict sample_filter) 1 = Ok sample_posterior.
Proof.
  unfold update. rewrite sample_innovation_variance. rewrite Reqb_false by lra.
  evaluate_filter. apply f_equal. f_equal; split_pairs; lra.
Qed.

Lemma flat_innovation_variance : innovation_variance (predict flat_filter) = 1 / 10.
Proof. evaluate_filter. lra. Qed.

Lemma flat_update : update (predict flat_filter) 1 = Ok flat_posterior.
Proof.
  unfold update. rewrite flat_innovation_variance. rewrite Reqb_false by lra.
  evaluate_filter. apply f_equal. f_equal; split_pairs; lra.
Qed.

Lemma sqrt_of_square (x y : R) : 0 <= y -> y * y = x -> sqrt x = y.
Proof. intros P E. apply sqrt_lem_1; [rewrite <- E; nra | exact P | exact E]. Qed.

(** The z-score the engine returns for [sample_filter] and the observation 1
    is 9/14. *)
Lemma sample_zscore_returned :
  snd (calculate_zscore sample_library (VNum 1)
         (fst (initialize_kalman_filter (0, 0) sample_covariance init)))
  = Ok (VNum (9 / 14)).
Proof.
  rewrite (calculate_zscore_scalar sample_library 1
             (fst (initialize_kalman_filter (0, 0) sample_covariance init))
             sample_filter sample_posterior eq_refl sample_update).
  simpl snd. unfold updated_zscore, sample_posterior, m00. simpl fst.
  rewrite (sqrt_of_square (4 / 49) (2 / 7)) by lra.
  rewrite Reqb_false by lra.
  do 2 f_equal. field.
Qed.

(** The z-score of the specification for the same filter and observation
    is 3/2. *)
Lemma sample_zscore_predicted : predicted_zscore sample_filter 1 = 3 / 2.
Proof.
  unfold predicted_zscore.
  assert (m00 (kf_P (predict sample_filter)) = 4 / 9) as V
    by (evaluate_filter; lra).
  assert (fst (kf_x (predict sample_filter)) = 0) as X
    by (evaluate_filter; lra).
  rewrite V, X. rewrite (sqrt_of_square (4 / 9) (2 / 3)) by lra. field.
Qed.

(** C3, as the claim states it, fails: for the filter initialized with
    level 0 and covariance [[391/900, 0], [0, 1]] and the observation 1, the
    engine returns 9/14, and the observation minus the predicted level over
    the square root of the predicted variance is 3/2. *)
Lemma zscore_is_not_the_predicted_one :
  snd (calculate_zscore sample_library (VNum 1)
         (fst (initialize_kalman_filter (0, 0) sample_covariance init)))
  <> Ok (VNum (predicted_zscore sample_filter 1)).
Proof.
  rewrite sample_zscore_returned, sample_zscore_predicted.
  intros E. injection E as E. lra.
Qed.

Lemma sample_filter_configured : configured sample_filter.
Proof. unfold configured, sample_filter, sample_covariance, m00. simpl. repeat split. lra. Qed.

Lemma calculate_zscore_uses_updated_state_witness :
  exists kf',
    update (predict sample_filter) 1 = Ok kf'
    /\ configured kf'
    /\ calculate_zscore sample_library (VNum 1)
         (fst (initialize_kalman_filter (0, 0) sample_covariance init))
       = (set_kalman_filter (fst (initialize_kalman_filter (0, 0) sample_covariance init))
            (Some kf'),
          Ok (VNum (updated_zscore kf' 1))).
Proof.
  apply (calculate_zscore_uses_updated_state sample_library 1
           (fst (initialize_kalman_filter (0, 0) sample_covariance init)) sample_filter).
  - reflexivity.
  - exact sample_filter_configured.
Defined.

Lemma calculate_zscore_guards_witness :
  calculate_zscore sample_library (VNum 1) init = (init, Ok (VNum 0))
  /\ calculate_zscore sample_library (VNum 1)
       (fst (initialize_kalman_filter (0, 0) flat_covariance init))
     = (set_kalman_filter (fst (initialize_kalman_filter (0, 0) flat_covariance init))
          (Some flat_posterior),
        Ok (VNum 0)).
Proof.
  split.
  - apply (proj1 (calculate_zscore_guards sample_library)). reflexivity.
  - apply (proj2 (calculate_zscore_guards sample_library) (VNum 1) _ flat_filter flat_posterior).
    + reflexivity.
    + exact flat_update.
    + reflexivity.
Defined.

Lemma detect_regime_cold_start_witness :
  detect_regime sample_library (VVec sample_prices) init = (init, Ok false)
  /\ detect_regime matrix_library (VVec sample_prices) init
     = detect_regime sample_library (VVec sample_prices) init.
Proof.
  apply (detect_regime_cold_start sample_library matrix_library (VVec sample_prices) init).
  simpl. lia.
Defined.

Lemma process_mt5_data_sample_request_is_error_witness :
  json_loads sample_library sample_request_text = Ok sample_request
  /\ process_mt5_data sample_library sample_request_text init
     = (init, error_response mismatch).
Proof.
  split.
  - reflexivity.
  - apply (process_mt5_data_sample_request_is_error sample_library sample_request_text).
    reflexivity.
Defined.

Lemma process_mt5_data_one_dimensional_is_error_witness :
  (exists self' e,
      process_mt5_data sample_library sample_request_text
        (fst (initialize_kalman_filter (0, 0) sample_covariance init))
      = (self', error_response e))
  /\ (forall b,
        snd (process_mt5_data sample_library sample_request_text
               (fst (initialize_kalman_filter (0, 0) sample_covariance init)))
        <> bundle_response b).
Proof.
  refine ((fun H => conj (proj1 H) (proj1 (proj2 H))) _).
  apply (process_mt5_data_one_dimensional_is_error sample_library sample_request_text
           (fst (initialize_kalman_filter (0, 0) sample_covariance init))
           sample_request (map JNum sample_prices) (repeat (JNum 100) 30)
           sample_prices (repeat 100 30));
    reflexivity.
Defined.

Lemma correlation_matrix_smoothing_witness :
  np_corrcoef sample_library (VVec [1; 2; 4]) (VVec [2; 3; 7]) = Ok (corrcoef [1; 2; 4] [2; 3; 7])
  /\ np_corrcoef sample_library (VVec [1; 3]) (VVec [5; 2]) = Ok (corrcoef [1; 3] [5; 2])
  /\ correlation_matrix
       (fst (calculate_hedge_ratio sample_library (VVec [1; 2; 4]) (VVec [2; 3; 7]) init))
     = Some ((1, corrcoef [1; 2; 4] [2; 3; 7]), (corrcoef [1; 2; 4] [2; 3; 7], 1))
  /\ exists m,
       correlation_matrix
         (fst (calculate_hedge_ratio sample_library (VVec [1; 3]) (VVec [5; 2])
                 (fst (calculate_hedge_ratio sample_library (VVec [1; 2; 4]) (VVec [2; 3; 7])
                         init))))
       = Some m
       /\ m01 m = 0.95 * corrcoef [1; 2; 4] [2; 3; 7] + 0.05 * corrcoef [1; 3] [5; 2].
Proof.
  apply (correlation_matrix_smoothing sample_library
           (VVec [1; 2; 4]) (VVec [2; 3; 7]) (VVec [1; 3]) (VVec [5; 2])
           init _ _ _ _ _ _ _ _ eq_refl eq_refl eq_refl).
Defined.

Lemma assemble_thresholds_witness :
  (Rgtb (Rabs 2.0) 2.0 = true <-> Rabs 2.0 > 2.0)
  /\ (Rgtb 0.7 0.7 = true <-> 0.7 > 0.7)
  /\ (2.0 = 2.0 -> Rgtb (Rabs 2.0) 2.0 = false).
Proof.
  apply (assemble_thresholds sample_library (VNum 2.0) false 0.5 (HDict 0.7 1 1) false
           {| zScore := 2.0;
              isDirectionalRegime := false;
              mlProbability := 0.5;
              kalmanSignal := Rgtb (Rabs 2.0) 2.0;
              hedgeSignal := Rgtb 0.7 0.7;
              correlation := 0.7;
              optimalStopSignal := false |}).
  reflexivity.
Defined.

Lemma sample_library_informative : informative sample_library.
Proof.
  constructor; try (intros; intros e E; injection E as <-; discriminate).
  - intros text e E. unfold sample_library, json_loads, sample_loads in E.
    destruct (String.eqb text sample_request_text); [discriminate E |].
    injection E as <-. discriminate.
  - intros returns e E. simpl in E. injection E as <-. discriminate.
Qed.

Lemma process_mt5_data_catches_everything_witness :
  ((exists self' b,
       signals matrix_library matrix_request_text init = (self', Ok b)
       /\ process_mt5_data matrix_library matrix_request_text init = (self', bundle_response b)
       /\ keys (bundle_response b) = bundle_keys)
   \/ (exists self' e,
         signals matrix_library matrix_request_text init = (self', Raise e)
         /\ process_mt5_data matrix_library matrix_request_text init
            = (self', JObj [("error", JStr (str e))])))
  /\ (process_mt5_data sample_library sample_request_text init
      = (init, JObj [("error", JStr (str mismatch))])
      /\ str mismatch <> "")
  /\ (process_mt5_data sample_library "{" init
      = (init, JObj [("error", JStr (str (JSONDecodeError "Expecting value" 1 1 0)))])
      /\ str (JSONDecodeError "Expecting value" 1 1 0) <> "")
  /\ handle_client sample_library [[x7b]; [x7b; x7d]] init
     = (fst (handle_client sample_library [[x7b; x7d]]
               (fst (process_mt5_data sample_library "{" init))),
        snd (process_mt5_data sample_library "{" init)
        :: snd (handle_client sample_library [[x7b; x7d]]
                  (fst (process_mt5_data sample_library "{" init))))
  /\ List.length (snd (handle_client sample_library [[x7b]; [x7b; x7d]] init)) = 2%nat.
Proof.
  destruct (process_mt5_data_catches_everything sample_library)
    as (_ & _ & A & B & T & C & _ & _ & _).
  split; [| split; [| split; [| split]]].
  - apply (proj1 (process_mt5_data_catches_everything matrix_library)).
  - apply (A sample_library_informative).
    apply (signals_fresh_mismatch sample_library sample_request_text sample_request
             (map JNum sample_prices) (repeat (JNum 100) 30)
             sample_prices (repeat 100 30)); try reflexivity.
    discriminate.
  - apply B. reflexivity.
  - apply (T [x7b] [[x7b; x7d]] init "{"); [discriminate | reflexivity].
  - apply (C [[x7b]; [x7b; x7d]] init).
    repeat constructor; try discriminate; eexists; reflexivity.
Defined.

Lemma regime_history_stays_empty_witness :
  reachable sample_library
    (step sample_library
       (step sample_library init (Initialize_kalman_filter (0, 0) sample_covariance))
       (Process_mt5_data sample_request_text))
  /\ regime_history
       (step sample_library
          (step sample_library init (Initialize_kalman_filter (0, 0) sample_covariance))
          (Process_mt5_data sample_request_text))
     = [].
Proof.
  assert (reachable sample_library
            (step sample_library
               (step sample_library init (Initialize_kalman_filter (0, 0) sample_covariance))
               (Process_mt5_data sample_request_text))) as Re
    by (do 2 apply reachable_step; apply reachable_init).
  split; [exact Re |].
  exact (proj1 (regime_history_stays_empty sample_library _ Re)).
Defined.

(** ** Requests with two-dimensional prices *)

Lemma cov_of_two (a1 a2 b1 b2 : R) : cov [a1; a2] [b1; b2] = (a1 - a2) * (b1 - b2) / 2.
Proof.
  unfold cov, center, mean, sum. simpl.
  destruct (Rle_dec (1 + 1 - 1) 0) as [L | L]; [lra | field].
Qed.

Lemma corrcoef_sample : corrcoef [1; 2] [3; 4] = 1.
Proof.
  unfold corrcoef. rewrite !cov_of_two.
  replace ((1 - 2) * (3 - 4) / 2) with (1 / 2) by lra.
  replace ((1 - 2) * (1 - 2) / 2) with (1 / 2) by lra.
  replace ((3 - 4) * (3 - 4) / 2) with (1 / 2) by lra.
  assert (0 < sqrt (1 / 2)) as P by (apply sqrt_lt_R0; lra).
  assert (sqrt (1 / 2) * sqrt (1 / 2) = 1 / 2) as S by (apply sqrt_sqrt; lra).
  replace (1 / 2 / sqrt (1 / 2) / sqrt (1 / 2)) with 1.
  - unfold clip. rewrite Rmax_left by lra. rewrite Rmin_left by lra. reflexivity.
  - rewrite <- S at 1. field. lra.
Qed.

(** A request whose prices are a matrix with two rows is answered with a
    bundle: the feature matrix stacks, the classifier is not fitted, and the
    two rows of prices are perfectly correlated. *)
Lemma process_matrix_request_returns_bundle :
  process_mt5_data matrix_library matrix_request_text init
  = (set_correlation_matrix init (Some (seed (corrcoef [1; 2] [3; 4]))),
     bundle_response
       {| zScore := 0;
          isDirectionalRegime := false;
          mlProbability := 0.5;
          kalmanSignal := Rgtb (Rabs 0) 2.0;
          hedgeSignal := Rgtb (corrcoef [1; 2] [3; 4]) 0.7;
          correlation := corrcoef [1; 2] [3; 4];
          optimalStopSignal :=
            Rltb (mean [ln 2 - ln 1; ln 4 - ln 3]
                  - 0.5 * 2.0 * std [ln 2 - ln 1; ln 4 - ln 3] ^ 2) 0 |}).
Proof. reflexivity. Qed.

Lemma matrix_request_signals :
  Rgtb (Rabs 0) 2.0 = false /\ Rgtb (corrcoef [1; 2] [3; 4]) 0.7 = true.
Proof.
  rewrite corrcoef_sample, Rabs_R0. unfold Rgtb. split.
  - destruct (Rlt_dec 2.0 0); [lra | reflexivity].
  - destruct (Rlt_dec 0.7 1); [reflexivity | lra].
Qed.

(** A request whose prices are a matrix with one row reaches the hedge
    estimator with a series of length one: the estimator returns its bare
    float, and reading the key [correlation] of it raises. *)
Lemma process_row_request_raises :
  process_mt5_data matrix_library row_request_text init
  = (init, error_response (TypeError "'float' object is not subscriptable")).
Proof. reflexivity. Qed.

(** ** Instances of the further properties *)

Lemma calculate_optimal_stop_mean_below_variance_witness :
  exists stop,
    calculate_optimal_stop sample_library (VVec [2; 1]) init = (init, Ok stop)
    /\ (stop = true <-> mean (diff (map ln [2; 1])) < var (diff (map ln [2; 1]))).
Proof.
  apply (calculate_optimal_stop_mean_below_variance sample_library [2; 1] init).
  - simpl. lia.
  - repeat constructor; lra.
Defined.

Lemma calculate_optimal_stop_negative_returns_witness :
  calculate_optimal_stop sample_library (VVec [3; 2; 1]) init = (init, Ok true).
Proof.
  apply (calculate_optimal_stop_negative_returns sample_library [3; 2; 1] init).
  - simpl. lia.
  - repeat constructor; lra.
  - apply diff_ln_falling.
    + repeat constructor; lra.
    + simpl. repeat split; lra.
Defined.

Lemma calculate_optimal_stop_constant_witness :
  calculate_optimal_stop sample_library (VVec [5; 5; 5]) init = (init, Ok false).
Proof.
  apply (calculate_optimal_stop_constant sample_library 5 [5; 5; 5] init).
  - simpl. lia.
  - lra.
  - repeat constructor.
Defined.

Lemma calculate_hedge_ratio_raises_on_unequal_lengths_witness :
  calculate_hedge_ratio sample_library (VVec [1; 2]) (VVec [1; 2; 3]) init
  = (init, Raise mismatch).
Proof.
  apply (proj2 (calculate_hedge_ratio_raises_on_unequal_lengths sample_library)).
  - simpl. lia.
  - simpl. lia.
  - simpl. lia.
Defined.

Lemma calculate_hedge_ratio_self_witness :
  snd (calculate_hedge_ratio sample_library (VVec [1; 2]) (VVec [1; 2]) init)
  = Ok (HDict 1 (INR (List.length [1; 2]) / (INR (List.length [1; 2]) - 1))
          (INR (List.length [1; 2]) / (INR (List.length [1; 2]) - 1))).
Proof.
  apply (calculate_hedge_ratio_self sample_library [1; 2] init).
  - simpl. lia.
  - unfold var, mean, sum. simpl. lra.
Defined.


Lemma singular_innovation_variance : innovation_variance (predict singular_filter) = 0.
Proof. unfold singular_filter, singular_covariance. evaluate_filter. lra. Qed.

Lemma calculate_zscore_raises_after_predict_witness :
  calculate_zscore sample_library (VNum 1)
    (fst (initialize_kalman_filter (0, 0) singular_covariance init))
  = (set_kalman_filter (fst (initialize_kalman_filter (0, 0) singular_covariance init))
       (Some (predict singular_filter)),
     Raise (LinAlgError "Singular matrix")).
Proof.
  apply (proj1 (calculate_zscore_raises_after_predict sample_library) 1
           (fst (initialize_kalman_filter (0, 0) singular_covariance init))
           singular_filter).
  - reflexivity.
  - exact singular_innovation_variance.
Defined.

Lemma detect_regime_compares_recent_labels_witness :
  exists self' regime,
    detect_regime regime_library (VVec [1; 2; 3])
      {| kalman_filter := None;
         hmm_model := Some tt;
         pca := None;
         rf_classifier := None;
         regime_history := repeat 0%Z 100;
         correlation_matrix := None |}
    = (self', Ok regime)
    /\ regime_history self' = repeat 0%Z 100 ++ [last [0%Z; 0%Z] 0%Z]
    /\ hmm_model self' = Some tt
    /\ (regime = true
        <-> Forall (fun label => label = last [0%Z; 0%Z] 0%Z) (tail 9 (repeat 0%Z 100))).
Proof.
  apply (detect_regime_compares_recent_labels regime_library (VVec [1; 2; 3])
           {| kalman_filter := None;
              hmm_model := Some tt;
              pca := None;
              rf_classifier := None;
              regime_history := repeat 0%Z 100;
              correlation_matrix := None |}
           tt (diff (map ln [1; 2; 3])) [0%Z; 0%Z]).
  - simpl. lia.
  - reflexivity.
  - left. reflexivity.
  - reflexivity.
  - discriminate.
Defined.

Lemma calculate_ml_probability_is_one_half_witness :
  calculate_ml_probability sample_library (VVec [1; 2])
    (step sample_library init (Process_mt5_data sample_request_text))
  = (step sample_library init (Process_mt5_data sample_request_text), Ok 0.5).
Proof.
  apply (proj1 (proj2 (calculate_ml_probability_is_one_half sample_library
                         (step sample_library init (Process_mt5_data sample_request_text))
                         (reachable_step sample_library init
                            (Process_mt5_data sample_request_text)
                            (reachable_init sample_library)))) (VVec [1; 2])).
Defined.


Lemma correlation_matrix_is_never_read_witness :
  snd (process_mt5_data sample_library sample_request_text init)
  = snd (process_mt5_data sample_library sample_request_text
           (set_correlation_matrix init (Some eye2))).
Proof.
  apply (proj2 (proj2 (correlation_matrix_is_never_read sample_library init
                         (set_correlation_matrix init (Some eye2))
                         (conj eq_refl (conj eq_refl (conj eq_refl (conj eq_refl eq_refl))))))).
Defined.

Lemma served_engine_answers_constants_witness :
  idle (fst (process_mt5_data matrix_library matrix_request_text init))
  /\ (forall data_json self' b,
        signals matrix_library data_json
          (fst (process_mt5_data matrix_library matrix_request_text init))
        = (self', Ok b) ->
        zScore b = 0 /\ kalmanSignal b = false
        /\ mlProbability b = 0.5 /\ isDirectionalRegime b = false).
Proof.
  apply (served_engine_answers_constants matrix_library).
  apply served_process, served_init.
Defined.

Lemma served_engine_answers_as_fresh_witness :
  snd (process_mt5_data matrix_library matrix_request_text
         (fst (process_mt5_data matrix_library matrix_request_text init)))
  = snd (process_mt5_data matrix_library matrix_request_text init).
Proof.
  apply (served_engine_answers_as_fresh matrix_library).
  apply served_process, served_init.
Defined.

Lemma served_wire_request_is_mismatch_witness :
  process_mt5_data matrix_library sample_request_text
    (fst (process_mt5_data matrix_library matrix_request_text init))
  = (fst (process_mt5_data matrix_library matrix_request_text init),
     error_response mismatch).
Proof.
  apply (served_wire_request_is_mismatch matrix_library sample_request_text
           (fst (process_mt5_data matrix_library matrix_request_text init))
           sample_request (map JNum sample_prices) (repeat (JNum 100) 30)
           sample_prices (repeat 100 30));
    try reflexivity.
  - apply served_process, served_init.
  - discriminate.
Defined.

Lemma handle_client_stops_at_first_bad_chunk_witness :
  handle_client sample_library ([[x7b]; [x7b; x7d]] ++ [] :: [[x7b]]) init
  = handle_client sample_library [[x7b]; [x7b; x7d]] init
  /\ List.length (snd (handle_client sample_library [[x7b]; [x7b; x7d]] init))
     = List.length [[x7b]; [x7b; x7d]].
Proof.
  apply (handle_client_stops_at_first_bad_chunk sample_library
           [[x7b]; [x7b; x7d]] [[x7b]] [] init).
  - repeat constructor; try discriminate; eexists; reflexivity.
  - intros [N _]. apply N. reflexivity.
Defined.

Lemma detect_cointegration_unequal_lengths_witness :
  exists e,
    detect_cointegration sample_library (VVec [1]) (VVec [1; 2]) init = (init, Raise e).
Proof.
  apply (detect_cointegration_unequal_lengths sample_library [1] [1; 2] init).
  simpl. lia.
Defined.

Lemma process_mt5_data_error_advances_filter_witness :
  exists kf',
    update (predict sample_filter) (last sample_prices 0) = Ok kf'
    /\ process_mt5_data sample_library sample_request_text
         (step sample_library init (Initialize_kalman_filter (0, 0) sample_covariance))
       = (set_kalman_filter
            (step sample_library init (Initialize_kalman_filter (0, 0) sample_covariance))
            (Some kf'),
          error_response mismatch).
Proof.
  apply (process_mt5_data_error_advances_filter sample_library sample_request_text
           (step sample_library init (Initialize_kalman_filter (0, 0) sample_covariance))
           sample_filter sample_request (map JNum sample_prices) (repeat (JNum 100) 30)
           sample_prices (repeat 100 30));
    try reflexivity.
  - apply reachable_step, reachable_init.
  - exact sample_filter_configured.
  - discriminate.
Defined.
